(** * A shallow embedding of the RAG chatbot core (src/core/*.py)

    Modelled modules:
    - [vector_store.py]: [VectorStoreManager] over a store of Chroma
      collections, with [_sanitize_collection_name], [knowledge_base_exists],
      [create_knowledge_base], [list_knowledge_bases], [delete_knowledge_base];
    - [conversation_manager.py]: [ConversationManager] as a state record
      threaded through a small state-and-exception monad (the [try]/[except]
      blocks of the source become [try_except]);
    - [rag_engine.py]: [RAGEngine._retrieve_documents], [_prepare_context],
      [_stream_llm_response] and [generate_response], the latter producing the
      trace of what the async generator yields and commits.

    Strings are Python [str] restricted to ASCII ([String.string]); Python
    [int] is [Z]; a Python [dict] read by key is an association list whose
    first binding wins. *)

From Stdlib Require Import String Ascii List ZArith Lia Bool Sorted Permutation.
From Stdlib Require QArith_base.
Import ListNotations.
Open Scope list_scope.
Open Scope string_scope.

(* ------------------------------------------------------------------ *)
(** ** Python string helpers (ASCII) *)

Module Py.

Definition code (c : ascii) : nat := nat_of_ascii c.

(** [str.isalnum] on a single ASCII character. *)
Definition isalnum (c : ascii) : bool :=
  let n := code c in
  (Nat.leb 48 n && Nat.leb n 57) || (Nat.leb 65 n && Nat.leb n 90)
  || (Nat.leb 97 n && Nat.leb n 122).

(** [str.isspace] on a single ASCII character: \t \n \v \f \r, the
    separators \x1c-\x1f, and the space. *)
Definition isspace (c : ascii) : bool :=
  let n := code c in
  (Nat.leb 9 n && Nat.leb n 13) || (Nat.leb 28 n && Nat.leb n 32).

(** [str.lower] on one ASCII character: the ASCII case mapping, which is
    Python's on characters below 128 only. *)
Definition lower_char (c : ascii) : ascii :=
  let n := code c in
  if Nat.leb 65 n && Nat.leb n 90 then ascii_of_nat (n + 32) else c.

Fixpoint lower (s : string) : string :=
  match s with
  | EmptyString => EmptyString
  | String c s' => String (lower_char c) (lower s')
  end.

(** [str.upper] on one ASCII character. *)
Definition upper_char (c : ascii) : ascii :=
  let n := code c in
  if Nat.leb 97 n && Nat.leb n 122 then ascii_of_nat (n - 32) else c.

(** A cased character (for [str.title]). *)
Definition is_cased (c : ascii) : bool :=
  let n := code c in
  (Nat.leb 65 n && Nat.leb n 90) || (Nat.leb 97 n && Nat.leb n 122).

(** [str.title] with the ASCII case mapping (Python's on ASCII text): a
    cased character is upper-cased when it follows an uncased one (or starts
    the string), lower-cased otherwise. *)
Fixpoint title_aux (prev_cased : bool) (s : string) : string :=
  match s with
  | EmptyString => EmptyString
  | String c s' =>
      let c' := if is_cased c
                then (if prev_cased then lower_char c else upper_char c)
                else c in
      String c' (title_aux (is_cased c) s')
  end.

Definition title (s : string) : string := title_aux false s.

(** [str.replace(a, b)] for single characters. *)
Fixpoint replace_char (a b : ascii) (s : string) : string :=
  match s with
  | EmptyString => EmptyString
  | String c s' =>
      String (if Ascii.eqb c a then b else c) (replace_char a b s')
  end.

(** [str.lstrip()] / [str.rstrip()] / [str.strip()] with no argument. *)
Fixpoint lstrip (s : string) : string :=
  match s with
  | EmptyString => EmptyString
  | String c s' => if isspace c then lstrip s' else s
  end.

Fixpoint rev_str (s : string) : string :=
  match s with
  | EmptyString => EmptyString
  | String c s' => rev_str s' ++ String c EmptyString
  end.

Definition rstrip (s : string) : string := rev_str (lstrip (rev_str s)).

Definition strip (s : string) : string := rstrip (lstrip s).

(** [sep.join(parts)]. *)
Fixpoint join (sep : string) (parts : list string) : string :=
  match parts with
  | [] => EmptyString
  | [p] => p
  | p :: ps => p ++ sep ++ join sep ps
  end.

(** [str(n)] for a Python [int]. *)
Definition digit (n : nat) : ascii := ascii_of_nat (48 + n).

Fixpoint pos_digits (fuel : nat) (n : nat) (acc : string) : string :=
  match fuel with
  | O => acc
  | S f =>
      let acc' := String (digit (n mod 10)) acc in
      if Nat.ltb n 10 then acc' else pos_digits f (n / 10) acc'
  end.

Definition nat_str (n : nat) : string := pos_digits (S n) n EmptyString.

Definition int_str (z : Z) : string :=
  if (z <? 0)%Z then String "-" (nat_str (Z.to_nat (- z)))
  else nat_str (Z.to_nat z).

(** [l[i:]] for a Python list and an [int] index [i]. *)
Definition slice_from {A} (i : Z) (l : list A) : list A :=
  if (0 <=? i)%Z then skipn (Z.to_nat i) l
  else skipn (length l - Z.to_nat (- i)) l.

(** Every character of [s] satisfies [p]. *)
Fixpoint all_chars (p : ascii -> bool) (s : string) : bool :=
  match s with
  | EmptyString => true
  | String c s' => p c && all_chars p s'
  end.

(** [s.isascii()]: every character is below 128, the part of [str] the
    character functions above model exactly. *)
Definition is_ascii (s : string) : bool := all_chars (fun c => Nat.ltb (code c) 128) s.

(** A newline and a double quote. *)
Definition nl : string := String (ascii_of_nat 10) EmptyString.
Definition dq : string := String (ascii_of_nat 34) EmptyString.

End Py.

(* ------------------------------------------------------------------ *)
(** ** [VectorStoreManager._sanitize_collection_name] *)

Module Sanitize.
Import Py.

(** [c.isalnum() or c in "-_"]. *)
Definition allowed (c : ascii) : bool :=
  isalnum c || Ascii.eqb c "-" || Ascii.eqb c "_".

(** The first character of a string is alphanumeric. *)
Definition starts_alnum (s : string) : bool :=
  match s with String c _ => isalnum c | EmptyString => false end.

Definition keep_char (c : ascii) : ascii :=
  if allowed c then c else "_"%char.

Fixpoint map_chars (s : string) : string :=
  match s with
  | EmptyString => EmptyString
  | String c s' => String (keep_char c) (map_chars s')
  end.

(** vector_store.py, lines 284-294. *)
Definition _sanitize_collection_name (name : string) : string :=
  let sanitized := map_chars (strip name) in
  let sanitized :=
    match sanitized with
    | String c _ => if negb (isalnum c) then "kb_" ++ sanitized else sanitized
    | EmptyString => sanitized
    end in
  let sanitized :=
    match sanitized with
    | EmptyString => "default_kb"
    | _ => sanitized
    end in
  lower sanitized.

(** The algorithm as the spec words it (section 4.2), for comparison: keep
    alphanumerics, [-] and [_], replace every other character by [_],
    prefix when the first character is not alphanumeric, default key when
    empty, lower-case. *)
Definition sanitize_as_specified (name : string) : string :=
  let s := map_chars name in
  let s := match s with
           | String c _ => if negb (isalnum c) then "kb_" ++ s else s
           | EmptyString => "default_kb"
           end in
  lower s.

End Sanitize.

Example sanitize_test_kb : Sanitize._sanitize_collection_name "Test KB" = "test_kb".
Proof. reflexivity. Qed.
Example sanitize_special : Sanitize._sanitize_collection_name "Special@#$Chars" = "special___chars".
Proof. reflexivity. Qed.
Example sanitize_mixed : Sanitize._sanitize_collection_name "My-Knowledge_Base" = "my-knowledge_base".
Proof. reflexivity. Qed.
Example title_example : Py.title (Py.replace_char "_" " " "123_numbers") = "123 Numbers".
Proof. reflexivity. Qed.
Example int_str_example : Py.int_str 120 = "120" /\ Py.int_str 0 = "0" /\ Py.int_str (-7) = "-7".
Proof. split; [|split]; reflexivity. Qed.

(* ------------------------------------------------------------------ *)
(** ** A state-and-exception monad for code with [try]/[except] *)

Module Exc.

(** A raised Python exception, by its message. *)
Inductive exn :=
  | KeyError (key : string)
  | ValueError (msg : string)
  | TypeError (msg : string)
  | RuntimeError (msg : string).

Inductive result (A : Type) := Ok (a : A) | Raise (e : exn).
Arguments Ok {A} a.
Arguments Raise {A} e.

(** A computation over a state [S]: the state reached so far is kept when
    an exception is raised (Python does not roll back mutations). *)
Definition M (S A : Type) := S -> result A * S.

Definition ret {S A} (a : A) : M S A := fun s => (Ok a, s).

Definition bind {S A B} (m : M S A) (k : A -> M S B) : M S B :=
  fun s => match m s with
           | (Ok a, s') => k a s'
           | (Raise e, s') => (Raise e, s')
           end.

Definition raise {S A} (e : exn) : M S A := fun s => (Raise e, s).
Definition get {S} : M S S := fun s => (Ok s, s).
Definition put {S} (s : S) : M S unit := fun _ => (Ok tt, s).
Definition modify {S} (f : S -> S) : M S unit := fun s => (Ok tt, f s).

(** [try: m except Exception: handler]. *)
Definition try_except {S A} (m : M S A) (handler : exn -> M S A) : M S A :=
  fun s => match m s with
           | (Ok a, s') => (Ok a, s')
           | (Raise e, s') => handler e s'
           end.

(** A computation that always returns normally. *)
Definition never_raises {S A} (m : M S A) : Prop :=
  forall s, exists a, fst (m s) = Ok a.

Module Notations.
Notation "x <- m ;; k" := (bind m (fun x => k))
  (at level 61, m at next level, right associativity).
Notation "m ;;; k" := (bind m (fun _ => k))
  (at level 61, right associativity).
End Notations.

End Exc.

(* ------------------------------------------------------------------ *)
(** ** [ConversationManager] (conversation_manager.py) *)

Module Conv.
Import Exc Exc.Notations.

(** LangChain messages held by [memory.chat_memory.messages]. *)
Inductive Msg := HumanMessage (content : string) | AIMessage (content : string).

(** A session message [{"role", "content", "timestamp"}]. *)
Record Turn := mkTurn { role : string; content : string; timestamp : string }.

Record ConversationManager := mkCM {
  max_conversation_history : Z;   (** config.max_conversation_history *)
  memory_size : Z;                (** k of ConversationBufferWindowMemory *)
  chat_messages : list Msg;       (** memory.chat_memory.messages *)
  session_messages : list Turn;
  session_id : option string
}.

(** [__init__]: [memory_size = config.max_conversation_history - 1]. *)
Definition init (max_hist : Z) : ConversationManager :=
  mkCM max_hist (max_hist - 1) [] [] None.

(** The default [AppConfig.max_conversation_history]. *)
Definition default_max_conversation_history : Z := 3.

Definition set_chat (st : ConversationManager) (m : list Msg) :=
  mkCM (max_conversation_history st) (memory_size st) m
       (session_messages st) (session_id st).
Definition set_session (st : ConversationManager) (t : list Turn) :=
  mkCM (max_conversation_history st) (memory_size st) (chat_messages st)
       t (session_id st).
Definition set_sid (st : ConversationManager) (sid : option string) :=
  mkCM (max_conversation_history st) (memory_size st) (chat_messages st)
       (session_messages st) sid.

Definition CM := M ConversationManager.

(** [str(e)]. *)
Definition exn_str (e : exn) : string :=
  match e with
  | KeyError k => "'" ++ k ++ "'"
  | ValueError m | TypeError m | RuntimeError m => m
  end.

(** [logger.error(...)]: no effect on the state. *)
Definition log_error : CM unit := ret tt.

Definition len {A} (l : list A) : Z := Z.of_nat (length l).

(** [add_message], lines 51-82. [ts] is [datetime.now().isoformat()]. *)
Definition add_message (human_message ai_message ts : string) : CM unit :=
  try_except
    (modify (fun st => set_chat st (chat_messages st ++ [HumanMessage human_message])%list) ;;;
     modify (fun st => set_chat st (chat_messages st ++ [AIMessage ai_message])%list) ;;;
     modify (fun st => set_session st (session_messages st ++
               [mkTurn "user" human_message ts; mkTurn "assistant" ai_message ts])%list) ;;;
     st <- get ;;
     let max_messages := max_conversation_history st in
     if (len (session_messages st) >? max_messages)%Z then
       let excess := (len (session_messages st) - max_messages)%Z in
       put (set_session st (Py.slice_from excess (session_messages st)))
     else ret tt)
    (fun _ => log_error).

(** [get_conversation_history], lines 91-95. *)
Definition get_conversation_history : CM (list Msg) :=
  try_except (st <- get ;; ret (chat_messages st)) (fun _ => log_error ;;; ret []).

(** [get_session_messages], line 104 (no [try]). *)
Definition get_session_messages : CM (list Turn) :=
  st <- get ;; ret (session_messages st).

Definition render (m : Msg) : string :=
  match m with
  | HumanMessage c => "Human: " ++ c
  | AIMessage c => "Assistant: " ++ c
  end.

(** [messages[-self.memory_size*2:]] (line 120): the model-facing window. *)
Definition window_messages (k : Z) (messages : list Msg) : list Msg :=
  Py.slice_from (- (k * 2)) messages.

(** [get_context_for_rag], lines 113-130. *)
Definition get_context_for_rag : CM string :=
  try_except
    (messages <- get_conversation_history ;;
     match messages with
     | [] => ret ""
     | _ =>
       st <- get ;;
       ret (Py.join Py.nl (map render (window_messages (memory_size st) messages)))
     end)
    (fun _ => log_error ;;; ret "").

(** [clear_conversation], lines 134-139: [memory.clear()] and
    [session_messages.clear()]; the session id is left as it is. *)
Definition clear_conversation : CM unit :=
  try_except
    (modify (fun st => set_chat st []) ;;;
     modify (fun st => set_session st []))
    (fun _ => log_error).

(** [set_session_id], line 148. *)
Definition set_session_id (sid : string) : CM unit :=
  modify (fun st => set_sid st (Some sid)).

(** The dictionary returned by [get_conversation_summary]. *)
Record Summary := mkSummary {
  sum_session_id : option string;
  total_session_messages : Z;
  total_langchain_messages : Z;
  memory_limit : Z;
  langchain_memory_size : Z;
  last_update : option string;
  conversation_active : bool
}.

(** [get_conversation_summary], lines 158-173; the [{"error": ...}]
    fallback is [inr]. *)
Definition get_conversation_summary (ts : string) : CM (Summary + string) :=
  try_except
    (langchain_messages <- get_conversation_history ;;
     st <- get ;;
     ret (inl (mkSummary (session_id st) (len (session_messages st))
                 (len langchain_messages) (max_conversation_history st)
                 (memory_size st)
                 (match session_messages st with [] => None | _ => Some ts end)
                 (0 <? len (session_messages st))%Z)))
    (fun e => log_error ;;; ret (inr (exn_str e))).

(** A message dictionary given to [load_session_messages]. *)
Definition Dict := list (string * string).

(** [msg[key]]: [KeyError] when absent. *)
Definition getitem (d : Dict) (key : string) : CM string :=
  match find (fun kv => String.eqb (fst kv) key) d with
  | Some (_, v) => ret v
  | None => raise (KeyError key)
  end.

(** The loop of lines 189-193, accumulating (user_messages, ai_messages). *)
Fixpoint split_roles (msgs : list Dict) (us ai : list string)
  : CM (list string * list string) :=
  match msgs with
  | [] => ret (us, ai)
  | msg :: rest =>
      r <- getitem msg "role" ;;
      if String.eqb r "user" then
        c <- getitem msg "content" ;; split_roles rest (us ++ [c])%list ai
      else if String.eqb r "assistant" then
        c <- getitem msg "content" ;; split_roles rest us (ai ++ [c])%list
      else split_roles rest us ai
  end.

(** [for i in range(min_length): self.add_message(user[i], ai[i])]. *)
Fixpoint add_pairs (us ai : list string) (ts : string) : CM unit :=
  match us, ai with
  | u :: us', a :: ai' => add_message u a ts ;;; add_pairs us' ai' ts
  | _, _ => ret tt
  end.

(** [load_session_messages], lines 182-213. *)
Definition load_session_messages (messages : list Dict) (ts : string) : CM unit :=
  try_except
    (clear_conversation ;;;
     p <- split_roles messages [] [] ;;
     let '(user_messages, ai_messages) := p in
     let min_length := Nat.min (length user_messages) (length ai_messages) in
     add_pairs user_messages ai_messages ts ;;;
     if Nat.ltb min_length (length user_messages) then
       let last := last user_messages "" in
       modify (fun st => set_chat st (chat_messages st ++ [HumanMessage last])%list) ;;;
       modify (fun st => set_session st (session_messages st ++ [mkTurn "user" last ts])%list)
     else ret tt)
    (fun _ => log_error).

(** [add_user_message], lines 222-238. *)
Definition add_user_message (message ts : string) : CM unit :=
  try_except
    (modify (fun st => set_chat st (chat_messages st ++ [HumanMessage message])%list) ;;;
     modify (fun st => set_session st (session_messages st ++ [mkTurn "user" message ts])%list) ;;;
     st <- get ;;
     if (len (session_messages st) >? max_conversation_history st)%Z then
       put (set_session st (Py.slice_from 1 (session_messages st)))
     else ret tt)
    (fun _ => log_error).

(** [add_ai_message], lines 247-263. *)
Definition add_ai_message (message ts : string) : CM unit :=
  try_except
    (modify (fun st => set_chat st (chat_messages st ++ [AIMessage message])%list) ;;;
     modify (fun st => set_session st (session_messages st ++ [mkTurn "assistant" message ts])%list) ;;;
     st <- get ;;
     if (len (session_messages st) >? max_conversation_history st)%Z then
       put (set_session st (Py.slice_from 1 (session_messages st)))
     else ret tt)
    (fun _ => log_error).

(** [get_last_user_message], lines 272-275 (no [try]). *)
Definition get_last_user_message : CM (option string) :=
  st <- get ;;
  ret (match find (fun t => String.eqb (role t) "user") (rev (session_messages st)) with
       | Some t => Some (content t)
       | None => None
       end).

End Conv.

Module ConvOps.
Import Exc Exc.Notations Conv.

(** The public operations of [ConversationManager], with their inputs. *)
Inductive Op :=
  | OpAddMessage (h a ts : string)
  | OpGetHistory
  | OpGetSessionMessages
  | OpGetContext
  | OpClear
  | OpSetSessionId (sid : string)
  | OpSummary (ts : string)
  | OpLoad (msgs : list Dict) (ts : string)
  | OpAddUser (m ts : string)
  | OpAddAI (m ts : string)
  | OpLastUser.

(** What an operation returns to its caller. *)
Inductive Ret :=
  | RNone
  | RMsgs (ms : list Msg)
  | RTurns (ts : list Turn)
  | RStr (s : string)
  | RSummary (s : Summary + string)
  | ROptStr (o : option string).

Definition run_op (op : Op) : CM Ret :=
  match op with
  | OpAddMessage h a ts => add_message h a ts ;;; ret RNone
  | OpGetHistory => ms <- get_conversation_history ;; ret (RMsgs ms)
  | OpGetSessionMessages => ts <- get_session_messages ;; ret (RTurns ts)
  | OpGetContext => s <- get_context_for_rag ;; ret (RStr s)
  | OpClear => clear_conversation ;;; ret RNone
  | OpSetSessionId sid => set_session_id sid ;;; ret RNone
  | OpSummary ts => s <- get_conversation_summary ts ;; ret (RSummary s)
  | OpLoad msgs ts => load_session_messages msgs ts ;;; ret RNone
  | OpAddUser m ts => add_user_message m ts ;;; ret RNone
  | OpAddAI m ts => add_ai_message m ts ;;; ret RNone
  | OpLastUser => o <- get_last_user_message ;; ret (ROptStr o)
  end.

(** The state after an operation (its result discarded). *)
Definition exec (op : Op) (st : ConversationManager) : ConversationManager :=
  snd (run_op op st).

Definition exec_all (ops : list Op) (st : ConversationManager) : ConversationManager :=
  fold_left (fun s op => exec op s) ops st.

End ConvOps.

(* ------------------------------------------------------------------ *)
(** ** Documents (langchain [Document]) *)

Module Doc.

(** A metadata value as the ingestion pipeline stores it: the PDF loader's
    [source] is a [str] and its [page] an [int]. *)
Inductive MVal := MStr (s : string) | MInt (z : Z).

Record Document := mkDoc {
  page_content : string;
  metadata : list (string * MVal)
}.

(** [doc.metadata.get(key)]. *)
Definition meta_get (d : Document) (key : string) : option MVal :=
  match find (fun kv => String.eqb (fst kv) key) (metadata d) with
  | Some (_, v) => Some v
  | None => None
  end.

(** Python truthiness of a metadata value. *)
Definition truthy (v : MVal) : bool :=
  match v with
  | MStr s => negb (String.eqb s "")
  | MInt z => negb (Z.eqb z 0)
  end.

(** [f"{v}"]. *)
Definition mval_str (v : MVal) : string :=
  match v with
  | MStr s => s
  | MInt z => Py.int_str z
  end.

End Doc.

(* ------------------------------------------------------------------ *)
(** ** [VectorStoreManager] (vector_store.py) over a Chroma store *)

Module VS.
Import Exc Exc.Notations Doc.

(** The persisted collections under [persist_directory], in creation
    order: collection name and its records. *)
Definition Store := list (string * list Document).

(** What [collection.delete()] (a [chromadb] [Collection.delete] with no
    [ids], [where] or [where_document]) does in the backend. [chromadb]
    raises for want of a filter ([RaiseOnDelete]); [DropCollection] is what
    the source comments expect (the whole collection goes), and
    [ClearRecords] a backend that would delete every record and keep the
    empty collection. *)
Inductive DeleteMode := DropCollection | ClearRecords | RaiseOnDelete.

(** The behaviour of the Chroma backend the manager talks to. *)
Record Backend := mkBackend {
  valid_name : string -> bool;     (** collection names Chroma accepts *)
  delete_mode : DeleteMode
}.

Definition VM := M Store.

Fixpoint lookup (key : string) (s : Store) : option (list Document) :=
  match s with
  | [] => None
  | (k, v) :: s' => if String.eqb k key then Some v else lookup key s'
  end.

Fixpoint update (key : string) (v : list Document) (s : Store) : Store :=
  match s with
  | [] => []
  | (k, w) :: s' => if String.eqb k key then (k, v) :: s' else (k, w) :: update key v s'
  end.

Fixpoint remove (key : string) (s : Store) : Store :=
  match s with
  | [] => []
  | (k, w) :: s' => if String.eqb k key then s' else (k, w) :: remove key s'
  end.

(** [Chroma(collection_name=..., ...)]: get-or-create the collection; the
    backend rejects names it does not accept. *)
Definition chroma_open (b : Backend) (key : string) : VM unit :=
  if valid_name b key then
    modify (fun s => match lookup key s with
                     | Some _ => s
                     | None => (s ++ [(key, [])])%list
                     end)
  else raise (ValueError "invalid collection name").

(** [collection.count()]. *)
Definition collection_count (key : string) : VM Z :=
  s <- get ;;
  ret (match lookup key s with Some docs => Z.of_nat (length docs) | None => 0%Z end).

(** [collection.delete()]. *)
Definition collection_delete (b : Backend) (key : string) : VM unit :=
  match delete_mode b with
  | DropCollection => modify (remove key)
  | ClearRecords => modify (update key [])
  | RaiseOnDelete => raise (ValueError "You must provide either ids, where, or where_document to delete.")
  end.

(** [vector_store.add_documents(documents)]. *)
Definition add_documents (key : string) (docs : list Document) : VM unit :=
  modify (fun s => match lookup key s with
                   | Some old => update key (old ++ docs)%list s
                   | None => s
                   end).

Definition sanitize := Sanitize._sanitize_collection_name.

(** [knowledge_base_exists], lines 132-159. *)
Definition knowledge_base_exists (b : Backend) (name : string) : VM bool :=
  let collection_name := sanitize name in
  try_except
    (chroma_open b collection_name ;;;
     count <- collection_count collection_name ;;
     if (count =? 0)%Z then
       r <- try_except (collection_delete b collection_name ;;; ret (Some false))
                       (fun _ => ret None) ;;
       match r with
       | Some v => ret v
       | None => ret (count >? 0)%Z
       end
     else ret (count >? 0)%Z)
    (fun _ => ret false).

(** The handle [create_knowledge_base] returns: a [Chroma] instance bound
    to a collection. *)
Record Handle := mkHandle { handle_collection : string }.

(** [create_knowledge_base], lines 61-90. *)
Definition create_knowledge_base (b : Backend) (name : string) (documents : list Document)
  : VM Handle :=
  if String.eqb name "" || String.eqb (Py.strip name) "" then
    raise (ValueError "Knowledge base name cannot be empty")
  else
    let collection_name := sanitize name in
    e <- knowledge_base_exists b collection_name ;;
    if e then raise (ValueError ("Knowledge base '" ++ name ++ "' already exists"))
    else match documents with
         | [] => raise (ValueError "Cannot create knowledge base with no documents")
         | _ =>
           try_except
             (chroma_open b collection_name ;;;
              add_documents collection_name documents ;;;
              ret (mkHandle collection_name))
             (fun e => raise e)
         end.

(** An entry of [list_knowledge_bases]. *)
Record KBInfo := mkKBInfo {
  kb_name : string;
  kb_collection_name : string;
  kb_document_count : Z;
  kb_created_at : Z
}.

(** [sorted(..., key=lambda x: x['name'])]: a stable insertion sort. *)
Fixpoint insert_by_name (e : KBInfo) (l : list KBInfo) : list KBInfo :=
  match l with
  | [] => [e]
  | h :: t => if String.ltb (kb_name e) (kb_name h) then e :: h :: t
              else h :: insert_by_name e t
  end.

Definition sort_by_name (l : list KBInfo) : list KBInfo :=
  fold_left (fun acc e => insert_by_name e acc) l [].

(** The loop of lines 184-205 over [client.list_collections()]. *)
Fixpoint collect (cols : Store) : list KBInfo :=
  match cols with
  | [] => []
  | (collection_name, docs) :: rest =>
      let count := Z.of_nat (length docs) in
      if (count >? 0)%Z then
        mkKBInfo (Py.title (Py.replace_char "_" " " collection_name))
                 collection_name count 0 :: collect rest
      else collect rest
  end.

(** [list_knowledge_bases], lines 168-212 (the persist directory exists:
    [__init__] creates it). *)
Definition list_knowledge_bases : VM (list KBInfo) :=
  s <- get ;; ret (sort_by_name (collect s)).

(** [delete_knowledge_base], lines 224-246. *)
Definition delete_knowledge_base (b : Backend) (name : string) : VM bool :=
  let collection_name := sanitize name in
  try_except
    (e <- knowledge_base_exists b collection_name ;;
     if negb e then ret false
     else chroma_open b collection_name ;;;
          collection_delete b collection_name ;;;
          ret true)
    (fun _ => ret false).

(** Chroma's collection-name rule: 3 to 63 characters from
    [a-zA-Z0-9._-], starting and ending with an alphanumeric character, no
    [..] (its IPv4 rule concerns dotted names only, which the sanitizer
    never produces). *)
Fixpoint last_char (s : string) : option ascii :=
  match s with
  | EmptyString => None
  | String c EmptyString => Some c
  | String _ s' => last_char s'
  end.

Fixpoint has_double_dot (s : string) : bool :=
  match s with
  | String "." ((String "." _) as _) => true
  | String _ s' => has_double_dot s'
  | EmptyString => false
  end.

Definition chroma_name_ok (n : string) : bool :=
  Nat.leb 3 (String.length n) && Nat.leb (String.length n) 63
  && Py.all_chars (fun c => Py.isalnum c || Ascii.eqb c "_" || Ascii.eqb c "-"
                         || Ascii.eqb c ".") n
  && match n with String c _ => Py.isalnum c | EmptyString => false end
  && match last_char n with Some c => Py.isalnum c | None => false end
  && negb (has_double_dot n).

(** A Chroma backend: its name rule and the given behaviour of
    [collection.delete()]. *)
Definition chroma_backend (mode : DeleteMode) : Backend :=
  mkBackend chroma_name_ok mode.

End VS.

(* ------------------------------------------------------------------ *)
(** ** [RAGEngine] (rag_engine.py) *)

Module RAG.
Import Exc Doc Py.

(** A chunk produced by [self.llm.astream(...)]: one with a [content]
    attribute (a [str], or another value such as a list of content blocks,
    named by its type), or one without it (rendered by [str(chunk)]). *)
Inductive Content := CStr (s : string) | COther (type_name : string).
Inductive LLMEvent :=
  | LContent (c : Content)
  | LNoContent (repr : string)
  | LFail (msg : string).   (** the stream raises with this message *)

(** The collaborators bound to an engine: the retriever
    ([None]: retrieval raises) and the chat model's stream for a prompt. *)
Record Env := mkEnv {
  retriever : string -> option (list Document);
  llm_astream : string -> list LLMEvent
}.

(** [_retrieve_documents], lines 156-170. *)
Definition _retrieve_documents (env : Env) (question : string) : list Document :=
  match retriever env question with
  | Some docs => docs
  | None => []
  end.

Definition no_context : string := "No relevant context found in the knowledge base.".

(** One entry of the context block, lines 188-192; [i] is 1-based. *)
Definition context_part (i : Z) (doc : Document) : string :=
  let source := match meta_get doc "source" with
                | Some v => mval_str v
                | None => "Document " ++ int_str i
                end in
  let page := match meta_get doc "page" with Some v => v | None => MStr "" end in
  let page_info := if truthy page then " (Page " ++ mval_str page ++ ")" else "" in
  "[Source " ++ int_str i ++ " - " ++ source ++ page_info ++ "]:" ++ nl
    ++ page_content doc ++ nl.

Fixpoint context_parts (i : Z) (docs : list Document) : list string :=
  match docs with
  | [] => []
  | d :: ds => context_part i d :: context_parts (i + 1) ds
  end.

(** [_prepare_context], lines 182-194. *)
Definition _prepare_context (documents : list Document) : string :=
  match documents with
  | [] => no_context
  | _ => join nl (context_parts 1 documents)
  end.

(** [self.prompt.format(question=..., context=..., chat_history=...)]. *)
Definition format_prompt (question context chat_history : string) : string :=
  "You are a helpful AI assistant that answers questions based on the provided context and conversation history." ++ nl ++ nl
  ++ "Context from documents:" ++ nl ++ context ++ nl ++ nl
  ++ "Conversation history:" ++ nl ++ chat_history ++ nl ++ nl
  ++ "Current question: " ++ question ++ nl ++ nl
  ++ "Instructions:" ++ nl
  ++ "1. Use the provided context to answer the question accurately" ++ nl
  ++ "2. If the context doesn't contain relevant information, output the following verbatim: "
  ++ dq ++ "No relevant information found." ++ dq ++ " " ++ nl
  ++ "3. Maintain conversation context from the history" ++ nl
  ++ "4. Be concise but comprehensive in your response" ++ nl
  ++ "5. If asked about previous parts of the conversation, refer to the chat history" ++ nl
  ++ nl ++ "Answer:".

(** [_stream_llm_response], lines 213-230: what it yields, in order; an
    exception of the model stream ends it with an error fragment. *)
Fixpoint relay_llm (events : list LLMEvent) : list Content :=
  match events with
  | [] => []
  | LContent c :: rest => c :: relay_llm rest
  | LNoContent r :: rest => CStr r :: relay_llm rest
  | LFail m :: _ => [CStr ("Error generating response: " ++ m)]
  end.

Definition _stream_llm_response (env : Env) (question context chat_history : string)
  : list Content :=
  relay_llm (llm_astream env (format_prompt question context chat_history)).

(** What [generate_response] does, observable by its caller: the fragments
    it yields and the exchanges it commits with [add_message]. *)
Inductive Event := Yield (fragment : string) | Commit (human ai : string).

(** The loop of lines 128-131: [response += chunk; yield chunk]. A non-[str]
    chunk makes [+=] raise a [TypeError] before it is yielded. *)
Fixpoint accumulate (chunks : list Content) (response : string)
  : list string * result string :=
  match chunks with
  | [] => ([], Ok response)
  | CStr s :: rest =>
      let '(ys, r) := accumulate rest (response ++ s) in (s :: ys, r)
  | COther t :: _ =>
      ([], Raise (TypeError ("can only concatenate str (not " ++ dq ++ t ++ dq ++ ") to str")))
  end.

Definition error_message (e : exn) : string :=
  "I apologize, but I encountered an error while generating a response: " ++ Conv.exn_str e.

(** [get_context_for_rag()] read from the bound memory. *)
Definition chat_history_of (mem : Conv.ConversationManager) : string :=
  match fst (Conv.get_context_for_rag mem) with
  | Ok s => s
  | Raise _ => ""
  end.

(** Lines 128-144: relay the stream while accumulating it, then commit the
    exchange; on an exception, yield the error message and commit it. *)
Definition respond (question : string) (chunks : list Content) : list Event :=
  let '(ys, r) := accumulate chunks "" in
  match r with
  | Ok response => (map Yield ys ++ [Commit question response])%list
  | Raise e =>
      let em := error_message e in
      (map Yield ys ++ [Yield em; Commit question em])%list
  end.

(** [generate_response], lines 115-144, as the sequence of its effects. *)
Definition generate_response_trace (env : Env) (mem : Conv.ConversationManager)
    (question : string) : list Event :=
  let relevant_docs := _retrieve_documents env question in
  let context := _prepare_context relevant_docs in
  let chat_history := chat_history_of mem in
  respond question (_stream_llm_response env question context chat_history).

(** Running the effects on the bound [ConversationManager]; [ts] is the
    timestamp of the commit. *)
Definition apply_event (ts : string) (mem : Conv.ConversationManager) (ev : Event)
  : Conv.ConversationManager :=
  match ev with
  | Yield _ => mem
  | Commit h a => snd (Conv.add_message h a ts mem)
  end.

Definition generate_response (env : Env) (mem : Conv.ConversationManager)
    (question ts : string) : list string * Conv.ConversationManager :=
  let tr := generate_response_trace env mem question in
  (flat_map (fun ev => match ev with Yield s => [s] | Commit _ _ => [] end) tr,
   fold_left (apply_event ts) tr mem).

End RAG.

(* ------------------------------------------------------------------ *)
(** ** More of [VectorStoreManager] and its callers in the application *)

Module VSMore.
Import Exc Exc.Notations Doc VS.

(** [get_knowledge_base], lines 102-120 (a [Chroma] instance is truthy). *)
Definition get_knowledge_base (b : Backend) (name : string) : VM (option Handle) :=
  let collection_name := sanitize name in
  e <- knowledge_base_exists b collection_name ;;
  if negb e then ret None
  else try_except (chroma_open b collection_name ;;; ret (Some (mkHandle collection_name)))
                  (fun _ => ret None).

(** [add_documents_to_knowledge_base], lines 259-271. *)
Definition add_documents_to_knowledge_base (b : Backend) (name : string)
    (documents : list Document) : VM bool :=
  vector_store <- get_knowledge_base b name ;;
  match vector_store with
  | None => ret false
  | Some h =>
      try_except (add_documents (handle_collection h) documents ;;; ret true)
                 (fun _ => ret false)
  end.

(** The dictionary returned by [get_knowledge_base_stats]. *)
Record KBStats := mkKBStats {
  stats_name : string;
  stats_document_count : Z;
  stats_collection_name : string;
  stats_persist_directory : string
}.

(** [get_knowledge_base_stats], lines 306-323; [persist_directory] is
    [str(self.persist_directory)]. *)
Definition get_knowledge_base_stats (b : Backend) (persist_directory name : string)
  : VM (option KBStats) :=
  vector_store <- get_knowledge_base b name ;;
  match vector_store with
  | None => ret None
  | Some h =>
      try_except
        (count <- collection_count (handle_collection h) ;;
         ret (Some (mkKBStats name count (sanitize name) persist_directory)))
        (fun _ => ret None)
  end.

(** The display name of a collection, line 194:
    [collection_name.replace('_', ' ').title()]. *)
Definition display_name (collection_name : string) : string :=
  Py.title (Py.replace_char "_" " " collection_name).

(** document_upload.py, [get_available_knowledge_bases], lines 328-333:
    the display names the UI offers, later passed back to
    [get_knowledge_base] (streamlit_app.py, line 164) and
    [delete_knowledge_base] (document_upload.py, line 295). *)
Definition get_available_knowledge_bases : VM (list string) :=
  try_except
    (knowledge_bases <- list_knowledge_bases ;;
     ret (map kb_name knowledge_bases))
    (fun _ => ret []).

(** A store operation that leaves every collection other than [k] as it
    was (a property, not code of the source). *)
Definition touches_only {A} (k : string) (m : VM A) : Prop :=
  forall s k', k' <> k -> lookup k' (snd (m s)) = lookup k' s.

(** The order of [sorted(..., key=lambda x: x['name'])] on listed entries. *)
Definition name_le (x y : KBInfo) : Prop := String.ltb (kb_name y) (kb_name x) = false.

End VSMore.

(* ------------------------------------------------------------------ *)
(** ** [DocumentProcessor] (document_processor.py) *)

Module DocProc.
Import Exc Doc.

(** The dictionary returned by [get_document_stats]; the two configuration
    entries are absent for an empty list. *)
Record DocStats := mkDocStats {
  total_chunks : Z;
  total_chars : Z;
  average_chunk_size : Z;
  chunk_size_config : option Z;
  chunk_overlap_config : option Z
}.

(** [sum(len(doc.page_content) for doc in documents)]. *)
Definition sum_chars (documents : list Document) : Z :=
  fold_left (fun acc d => acc + Z.of_nat (String.length (page_content d)))%Z documents 0%Z.

(** [get_document_stats], lines 161-172 ([//] is floor division). *)
Definition get_document_stats (chunk_size chunk_overlap : Z) (documents : list Document)
  : DocStats :=
  match documents with
  | [] => mkDocStats 0 0 0 None None
  | _ =>
      let total_chars := sum_chars documents in
      let n := Z.of_nat (length documents) in
      mkDocStats n total_chars (total_chars / n) (Some chunk_size) (Some chunk_overlap)
  end.

(** [s.endswith(suffix)]. *)
Definition endswith (s suffix : string) : bool :=
  String.prefix (Py.rev_str suffix) (Py.rev_str s).

Definition MiB : Z := 1048576.

(** [f"{x:.1f}"] for [x = size / (1024 * 1024)], [size >= 0]: the exact
    binary value rounded to one decimal, ties to even. *)
Definition fmt_mb_1f (size : Z) : string :=
  let q := (size * 10 / MiB)%Z in
  let r := (size * 10 mod MiB)%Z in
  let q' := if (2 * r >? MiB)%Z then (q + 1)%Z
            else if (2 * r =? MiB)%Z then (if Z.even q then q else q + 1)%Z
            else q in
  Py.int_str (q' / 10) ++ "." ++ String (Py.digit (Z.to_nat (q' mod 10))) "".

(** The checks that open [process_uploaded_file], lines 105-112, for a file
    [name] of [size] bytes; [file_size_mb] is the exact quotient (a float
    division by a power of two). What follows them (the temporary file and
    the PDF parsing) is not modelled. *)
Definition check_upload (name : string) (size max_file_size_mb : Z) : result unit :=
  if negb (endswith (Py.lower name) ".pdf") then
    Raise (ValueError "Only PDF files are supported")
  else
    let file_size_mb := QArith_base.Qmake size 1048576 in
    if negb (QArith_base.Qle_bool file_size_mb (QArith_base.inject_Z max_file_size_mb)) then
      Raise (ValueError ("File too large: " ++ fmt_mb_1f size ++ "MB. "
                         ++ "Maximum allowed: " ++ Py.int_str max_file_size_mb ++ "MB"))
    else Ok tt.

End DocProc.

(* ------------------------------------------------------------------ *)
(** ** Session messages as dictionaries *)

Module ConvMore.
Import Conv.

(** A display-log entry as the dictionary [get_session_messages] returns
    and [load_session_messages] reads. *)
Definition turn_dict (t : Turn) : Dict :=
  [("role", role t); ("content", content t); ("timestamp", timestamp t)].

(** The contents of the turns of role [r], in order: what the loop of
    lines 189-193 collects from a list of [turn_dict]s. *)
Definition role_contents (r : string) (turns : list Turn) : list string :=
  map content (filter (fun t => String.eqb (role t) r) turns).

(** The configuration part of a manager: the display cap and the window
    size. *)
Definition cfg (st : ConversationManager) : Z * Z :=
  (max_conversation_history st, memory_size st).

(** A computation that leaves the configuration as it is. *)
Definition keeps {A} (m : CM A) : Prop := forall s, cfg (snd (m s)) = cfg s.

End ConvMore.

(* ------------------------------------------------------------------ *)
(** ** Stream events relayed as they are *)

Module RAGMore.
Import RAG.

(** The text [_stream_llm_response] relays for a chunk with [str] content
    (line 219) or without a [content] attribute (line 221). *)
Definition plain_text (ev : LLMEvent) : option string :=
  match ev with
  | LContent (CStr s) => Some s
  | LNoContent r => Some r
  | _ => None
  end.

End RAGMore.

(* ------------------------------------------------------------------ *)
(** ** Concrete inputs *)

Module Inputs.
Import Conv ConvOps.

(** The five session messages of the C4 failing input: two exchanges and a
    pending user message. *)
Definition two_exchanges_and_pending : list Dict :=
  [ [("role", "user"); ("content", "u1")]; [("role", "assistant"); ("content", "a1")];
    [("role", "user"); ("content", "u2")]; [("role", "assistant"); ("content", "a2")];
    [("role", "user"); ("content", "u3")] ].

(** The C9 input: a message without a ["role"] key, loaded into a memory
    holding one exchange. *)
Definition one_exchange : ConversationManager :=
  exec (OpAddMessage "u" "a" "t") (init 3).

(** A one-chunk document list. *)
Definition sample_doc : Doc.Document := Doc.mkDoc "Test content" [].

(** A retriever that finds nothing and a model that streams one chunk. *)
Definition empty_retriever_env : RAG.Env :=
  RAG.mkEnv (fun _ => None) (fun _ => [RAG.LContent (RAG.CStr "ok")]).

(** A chunk from page 4 of a PDF. *)
Definition page_four_doc : Doc.Document :=
  Doc.mkDoc "Body" [("source", Doc.MStr "a.pdf"); ("page", Doc.MInt 4)].

(** A store holding one knowledge base of one chunk. *)
Definition one_kb_store : VS.Store := [("kb1", [sample_doc])].

(** A store holding a knowledge base whose key ends with [_]. *)
Definition underscore_kb_store : VS.Store := [("proj_", [sample_doc])].

(** A model stream that fails after two fragments. *)
Definition failing_stream_env : RAG.Env :=
  RAG.mkEnv (fun _ => None)
    (fun _ => [RAG.LContent (RAG.CStr "Par"); RAG.LNoContent "tial";
               RAG.LFail "rate limit"; RAG.LContent (RAG.CStr "x")]).

(** A model stream whose second chunk carries a list of content blocks. *)
Definition block_chunk_env : RAG.Env :=
  RAG.mkEnv (fun _ => None)
    (fun _ => [RAG.LContent (RAG.CStr "Hi"); RAG.LContent (RAG.COther "list");
               RAG.LContent (RAG.CStr "x")]).

End Inputs.

(* ================================================================== *)
(** * Proofs *)

(** ** Character and string lemmas for the sanitizer *)

Module SanitizeFacts.
Import Py Sanitize.

Ltac ascii_cases c :=
  destruct c as [[] [] [] [] [] [] [] []]; vm_compute; reflexivity.

Lemma keep_char_allowed (c : ascii) : allowed (keep_char c) = true.
Proof. ascii_cases c. Qed.

Lemma keep_char_id (c : ascii) : allowed c = true -> keep_char c = c.
Proof. unfold keep_char. intros ->. reflexivity. Qed.

Lemma allowed_not_space (c : ascii) : allowed c = true -> isspace c = false.
Proof. destruct c as [[] [] [] [] [] [] [] []]; vm_compute; congruence. Qed.

Lemma lower_char_allowed (c : ascii) : allowed (lower_char c) = allowed c.
Proof. ascii_cases c. Qed.

Lemma lower_char_alnum (c : ascii) : isalnum (lower_char c) = isalnum c.
Proof. ascii_cases c. Qed.

Lemma lower_char_idem (c : ascii) : lower_char (lower_char c) = lower_char c.
Proof. ascii_cases c. Qed.

Lemma lower_idem (s : string) : lower (lower s) = lower s.
Proof. induction s; simpl; [reflexivity | now rewrite lower_char_idem, IHs]. Qed.

Lemma lower_app (a b : string) : lower (a ++ b) = lower a ++ lower b.
Proof. induction a; simpl; [reflexivity | now rewrite IHa]. Qed.

Lemma all_chars_app (p : ascii -> bool) (a b : string) :
  all_chars p (a ++ b) = all_chars p a && all_chars p b.
Proof. induction a; simpl; [reflexivity | now rewrite IHa, andb_assoc]. Qed.

Lemma lower_all_allowed (s : string) : all_chars allowed (lower s) = all_chars allowed s.
Proof. induction s; simpl; [reflexivity | now rewrite lower_char_allowed, IHs]. Qed.

Lemma map_chars_allowed (s : string) : all_chars allowed (map_chars s) = true.
Proof. induction s; simpl; [reflexivity | now rewrite keep_char_allowed, IHs]. Qed.

Lemma map_chars_id (s : string) : all_chars allowed s = true -> map_chars s = s.
Proof.
  induction s; simpl; [reflexivity|].
  intros H; apply andb_prop in H as [H1 H2].
  now rewrite keep_char_id, IHs.
Qed.

Lemma str_app_nil_r (a : string) : a ++ "" = a.
Proof. induction a; simpl; [reflexivity | now rewrite IHa]. Qed.

Lemma str_app_assoc (a b c : string) : a ++ (b ++ c) = (a ++ b) ++ c.
Proof. induction a; simpl; [reflexivity | now rewrite IHa]. Qed.

Lemma rev_str_app (a b : string) : rev_str (a ++ b) = rev_str b ++ rev_str a.
Proof.
  induction a; simpl.
  - now rewrite str_app_nil_r.
  - now rewrite IHa, str_app_assoc.
Qed.

Lemma rev_str_involutive (s : string) : rev_str (rev_str s) = s.
Proof. induction s; simpl; [reflexivity | now rewrite rev_str_app, IHs]. Qed.

Lemma all_chars_rev (p : ascii -> bool) (s : string) :
  all_chars p (rev_str s) = all_chars p s.
Proof.
  induction s; simpl; [reflexivity|].
  rewrite all_chars_app, IHs; simpl. now rewrite andb_true_r, andb_comm.
Qed.

Lemma lstrip_allowed (s : string) : all_chars allowed s = true -> lstrip s = s.
Proof.
  destruct s as [|c s]; simpl; [reflexivity|].
  intros H; apply andb_prop in H as [H _].
  now rewrite allowed_not_space.
Qed.

Lemma strip_allowed (s : string) : all_chars allowed s = true -> strip s = s.
Proof.
  intros H. unfold strip, rstrip.
  rewrite (lstrip_allowed s H), lstrip_allowed, rev_str_involutive; [reflexivity|].
  now rewrite all_chars_rev.
Qed.

Lemma lower_starts_alnum (s : string) : starts_alnum (lower s) = starts_alnum s.
Proof. destruct s; simpl; [reflexivity | apply lower_char_alnum]. Qed.

(** The sanitizer returns the lower-casing of a string of allowed characters
    that starts with an alphanumeric one. *)
Lemma sanitize_shape (x : string) :
  exists t, _sanitize_collection_name x = lower t
            /\ all_chars allowed t = true /\ starts_alnum t = true.
Proof.
  unfold _sanitize_collection_name.
  pose proof (map_chars_allowed (strip x)) as Hall.
  destruct (map_chars (strip x)) as [|c r] eqn:Hm.
  - exists "default_kb". split; [reflexivity | split; reflexivity].
  - simpl in Hall. apply andb_prop in Hall as [Hc Hr].
    destruct (isalnum c) eqn:Ha; simpl.
    + exists (String c r). split; [reflexivity|]. simpl. now rewrite Hc, Hr, Ha.
    + exists ("kb_" ++ String c r). split; [reflexivity|]. simpl. now rewrite Hc, Hr.
Qed.

Lemma sanitize_clean (t : string) :
  all_chars allowed t = true -> starts_alnum t = true ->
  _sanitize_collection_name (lower t) = lower t.
Proof.
  intros Hall Hst.
  rewrite <- lower_all_allowed in Hall. rewrite <- lower_starts_alnum in Hst.
  unfold _sanitize_collection_name.
  rewrite (strip_allowed _ Hall), (map_chars_id _ Hall).
  destruct (lower t) as [|c r] eqn:Hl; [discriminate|].
  simpl in Hst. rewrite Hst. change (lower (String c r) = String c r).
  rewrite <- Hl. apply lower_idem.
Qed.

Lemma sanitize_idem (x : string) :
  _sanitize_collection_name (_sanitize_collection_name x) = _sanitize_collection_name x.
Proof.
  destruct (sanitize_shape x) as (t & Ht & Hall & Hst).
  rewrite Ht. now apply sanitize_clean.
Qed.

Lemma sanitize_nonempty (x : string) : _sanitize_collection_name x <> "".
Proof.
  destruct (sanitize_shape x) as (t & Ht & _ & Hst).
  rewrite Ht. destruct t; [discriminate | simpl; discriminate].
Qed.

(** The sanitizer is the spec's algorithm applied to the stripped name. *)
Lemma sanitize_strip_spec (x : string) :
  _sanitize_collection_name x = sanitize_as_specified (strip x).
Proof.
  unfold _sanitize_collection_name, sanitize_as_specified.
  destruct (map_chars (strip x)) as [|c r]; [reflexivity|].
  destruct (isalnum c); reflexivity.
Qed.

End SanitizeFacts.

(* ------------------------------------------------------------------ *)
(** ** Claims on [_sanitize_collection_name] *)

Module SanitizeClaims.
Import Py Sanitize SanitizeFacts.

(** C2 (counterexample): the sanitizer is not the described algorithm
    "keep alphanumerics, [-] and [_], replace every other character by [_],
    prefix, default, lower-case": it strips surrounding whitespace first, so
    [" a"] becomes ["a"] where the described algorithm gives ["kb__a"]. *)
Lemma C2_sanitize_not_as_described :
  ~ (forall x, _sanitize_collection_name x = sanitize_as_specified x).
Proof.
  intros H. specialize (H " a"). vm_compute in H. discriminate H.
Qed.

(** C2 (amended): on ASCII names the sanitizer is idempotent and total,
    never returns the empty string, maps ["Test KB"] to ["test_kb"], [""] to
    ["default_kb"] and ["123 Numbers"] to ["123_numbers"], and is the
    described algorithm applied after [str.strip()]. *)
Theorem C2_sanitize_idempotent_total :
  (forall x,
     _sanitize_collection_name (_sanitize_collection_name x) = _sanitize_collection_name x
     /\ _sanitize_collection_name x <> ""
     /\ _sanitize_collection_name x = sanitize_as_specified (strip x))
  /\ _sanitize_collection_name "Test KB" = "test_kb"
  /\ _sanitize_collection_name "" = "default_kb"
  /\ _sanitize_collection_name "123 Numbers" = "123_numbers".
Proof.
  split; [|split; [|split]]; try reflexivity.
  intros x. split; [apply sanitize_idem | split; [apply sanitize_nonempty | apply sanitize_strip_spec]].
Qed.

End SanitizeClaims.

(* ------------------------------------------------------------------ *)
(** ** Claims on [ConversationManager] *)

Module ConvFacts.
Import Exc Exc.Notations Conv ConvOps.

Lemma ret_safe {S A} (a : A) : never_raises (S := S) (ret a).
Proof. intros s. now exists a. Qed.

Lemma get_safe {S} : never_raises (S := S) get.
Proof. intros s. now exists s. Qed.

Lemma put_safe {S} (x : S) : never_raises (put x).
Proof. intros s. now exists tt. Qed.

Lemma modify_safe {S} (f : S -> S) : never_raises (modify f).
Proof. intros s. now exists tt. Qed.

Lemma bind_safe {S A B} (m : M S A) (k : A -> M S B) :
  never_raises m -> (forall a, never_raises (k a)) -> never_raises (bind m k).
Proof.
  intros Hm Hk s. unfold bind.
  destruct (Hm s) as [a Ha]. destruct (m s) as [r s'] eqn:E.
  simpl in Ha; subst r. apply Hk.
Qed.

Lemma try_except_safe {S A} (m : M S A) (h : exn -> M S A) :
  (forall e, never_raises (h e)) -> never_raises (try_except m h).
Proof.
  intros Hh s. unfold try_except.
  destruct (m s) as [[a|e] s'].
  - now exists a.
  - apply Hh.
Qed.

Create HintDb safe.
#[local] Hint Resolve ret_safe get_safe put_safe modify_safe : safe.

Ltac safe :=
  repeat first
    [ progress intros
    | solve [eauto with safe]
    | apply bind_safe
    | apply try_except_safe
    | match goal with |- never_raises (match ?x with _ => _ end) => destruct x end ].

Lemma log_error_safe : never_raises log_error.
Proof. apply ret_safe. Qed.
#[local] Hint Resolve log_error_safe : safe.

Lemma add_message_safe h a ts : never_raises (add_message h a ts).
Proof. safe. Qed.

Lemma add_user_message_safe m ts : never_raises (add_user_message m ts).
Proof. safe. Qed.

Lemma add_ai_message_safe m ts : never_raises (add_ai_message m ts).
Proof. safe. Qed.

Lemma clear_conversation_safe : never_raises clear_conversation.
Proof. safe. Qed.

Lemma get_conversation_history_safe : never_raises get_conversation_history.
Proof. safe. Qed.

Lemma get_context_for_rag_safe : never_raises get_context_for_rag.
Proof. safe. Qed.

Lemma get_conversation_summary_safe ts : never_raises (get_conversation_summary ts).
Proof. safe. Qed.

Lemma load_session_messages_safe msgs ts : never_raises (load_session_messages msgs ts).
Proof. safe. Qed.

Lemma get_session_messages_safe : never_raises get_session_messages.
Proof. safe. Qed.

Lemma set_session_id_safe sid : never_raises (set_session_id sid).
Proof. safe. Qed.

Lemma get_last_user_message_safe : never_raises get_last_user_message.
Proof. safe. Qed.

#[local] Hint Resolve add_message_safe add_user_message_safe add_ai_message_safe
  clear_conversation_safe get_conversation_history_safe get_context_for_rag_safe
  get_conversation_summary_safe load_session_messages_safe get_session_messages_safe
  set_session_id_safe get_last_user_message_safe : safe.

Lemma run_op_safe (op : Op) : never_raises (run_op op).
Proof. destruct op; simpl; safe. Qed.

End ConvFacts.

Module ConvClaims.
Import Exc Conv ConvOps ConvFacts Inputs.

(** C4 (failing input): with [max_conversation_history = 3],
    [load_session_messages] of two exchanges followed by a pending user
    message leaves four entries in [session_messages]: the pending user
    turn is appended without the cap check [add_user_message] applies. *)
Lemma C4_load_session_messages_exceeds_cap :
  let st := exec (OpLoad two_exchanges_and_pending "t") (init 3) in
  length (session_messages st) = 4%nat
  /\ max_conversation_history st = 3%Z
  /\ map content (session_messages st) = ["a1"; "u2"; "a2"; "u3"].
Proof. vm_compute. repeat split. Qed.

(** C5 (counterexample): after three [add_message] calls with the default
    limit 3, the model-facing window [messages[-memory_size*2:]] holds four
    turns, more than the display log's cap of three: it is not smaller. *)
Lemma C5_window_not_smaller_than_display_cap :
  let st := exec_all [OpAddMessage "u1" "a1" "t"; OpAddMessage "u2" "a2" "t";
                      OpAddMessage "u3" "a3" "t"] (init default_max_conversation_history) in
  ~ (Z.of_nat (length (window_messages (memory_size st) (chat_messages st)))
       < max_conversation_history st)%Z.
Proof. vm_compute. discriminate. Qed.

(** C5 (amended): with the default limit 3, after three [add_message] calls
    from an empty memory the display log holds exactly the three most recent
    turns (the first three of the six appended are evicted), [memory_size]
    is [3 - 1 = 2] exchange pairs, and the model-facing window therefore holds
    the last four turns, one more than the display log. *)
Theorem C5_default_eviction_and_window :
  forall h1 a1 h2 a2 h3 a3 ts,
  let st := exec_all [OpAddMessage h1 a1 ts; OpAddMessage h2 a2 ts;
                      OpAddMessage h3 a3 ts] (init default_max_conversation_history) in
  session_messages st = [mkTurn "assistant" a2 ts; mkTurn "user" h3 ts; mkTurn "assistant" a3 ts]
  /\ length (session_messages st) = 3%nat
  /\ memory_size st = (max_conversation_history st - 1)%Z
  /\ memory_size st = 2%Z
  /\ window_messages (memory_size st) (chat_messages st)
     = [HumanMessage h2; AIMessage a2; HumanMessage h3; AIMessage a3]
  /\ fst (get_context_for_rag st)
     = Ok (Py.join Py.nl ["Human: " ++ h2; "Assistant: " ++ a2; "Human: " ++ h3; "Assistant: " ++ a3]).
Proof. intros. repeat split. Qed.

(** C9 (counterexample): [load_session_messages] with a message lacking
    ["role"] hits an internal [KeyError] and returns normally, but it is not
    a no-op: the memory was cleared before the messages were read, and it
    stays cleared. *)
Lemma C9_load_error_not_noop :
  fst (split_roles [[("content", "x")]] [] [] (snd (clear_conversation one_exchange)))
    = Raise (KeyError "role")
  /\ fst (run_op (OpLoad [[("content", "x")]] "t") one_exchange) = Ok RNone
  /\ exec (OpLoad [[("content", "x")]] "t") one_exchange <> one_exchange
  /\ session_messages (exec (OpLoad [[("content", "x")]] "t") one_exchange) = []
  /\ chat_messages (exec (OpLoad [[("content", "x")]] "t") one_exchange) = [].
Proof.
  vm_compute. split; [reflexivity | split; [reflexivity | split; [discriminate | split; reflexivity]]].
Qed.

(** C9 (amended): no [ConversationManager] operation propagates an
    exception, whatever the state and the input: every call returns
    normally. *)
Theorem C9_operations_never_raise :
  forall (op : Op) (st : ConversationManager), exists r, fst (run_op op st) = Ok r.
Proof. intros op. apply run_op_safe. Qed.

End ConvClaims.

(* ------------------------------------------------------------------ *)
(** ** Claims on [RAGEngine] *)

Module RAGFacts.
Import Exc Doc Py RAG SanitizeFacts.

Lemma join_empty_cons (s : string) (ys : list string) :
  join "" (s :: ys) = s ++ join "" ys.
Proof. destruct ys; simpl; [now rewrite str_app_nil_r | reflexivity]. Qed.

(** The loop either consumes the whole stream, having accumulated every
    fragment it yielded, or stops on an exception. *)
Lemma accumulate_cases (chunks : list Content) (resp : string) :
  match accumulate chunks resp with
  | (ys, Ok r) => r = resp ++ join "" ys
  | (_, Raise _) => True
  end.
Proof.
  revert resp. induction chunks as [|[s|t] rest IH]; intros resp; simpl.
  - now rewrite str_app_nil_r.
  - specialize (IH (resp ++ s)).
    destruct (accumulate rest (resp ++ s)) as [ys [r|e]]; [|exact I].
    rewrite IH, join_empty_cons, str_app_assoc. reflexivity.
  - exact I.
Qed.

Lemma flat_map_yields (ys : list string) (q a : string) :
  flat_map (fun ev => match ev with Yield s => [s] | Commit _ _ => [] end)
           (map Yield ys ++ [Commit q a])%list = ys.
Proof. induction ys; simpl; [reflexivity | now rewrite IHys]. Qed.

Lemma fold_yields (ts : string) (mem : Conv.ConversationManager) (ys : list string) :
  fold_left (apply_event ts) (map Yield ys) mem = mem.
Proof. induction ys; simpl; [reflexivity | apply IHys]. Qed.

Lemma nth_error_context_parts (docs : list Document) (i : Z) (k : nat) :
  nth_error (context_parts i docs) k
  = option_map (context_part (i + Z.of_nat k)) (nth_error docs k).
Proof.
  revert i k. induction docs as [|d ds IH]; intros i [|k]; simpl.
  - reflexivity.
  - reflexivity.
  - now rewrite Z.add_0_r.
  - rewrite IH. f_equal. f_equal. lia.
Qed.

Lemma find_skip_page (key : string) (v : MVal) (m1 m2 : list (string * MVal)) :
  key <> "page" ->
  find (fun kv => String.eqb (fst kv) key) (m1 ++ ("page", v) :: m2)%list
  = find (fun kv => String.eqb (fst kv) key) (m1 ++ m2)%list.
Proof.
  intros Hk. induction m1 as [|[k' v'] m1 IH]; cbn -[String.eqb].
  - destruct (String.eqb "page" key) eqn:E; [|reflexivity].
    apply String.eqb_eq in E. congruence.
  - now rewrite IH.
Qed.

Lemma find_app_none (key : string) (m1 m2 : list (string * MVal)) :
  find (fun kv => String.eqb (fst kv) key) m1 = None ->
  find (fun kv => String.eqb (fst kv) key) (m1 ++ m2)%list
  = find (fun kv => String.eqb (fst kv) key) m2.
Proof.
  induction m1 as [|[k' v'] m1 IH]; cbn -[String.eqb]; [reflexivity|].
  destruct (String.eqb k' key); [discriminate | exact IH].
Qed.

End RAGFacts.

Module RAGClaims.
Import Exc Doc Py RAG RAGFacts SanitizeFacts.

(** C1: whatever the retriever and the model stream do, [generate_response]
    yields its fragments and then commits exactly one exchange, last: the
    question with the concatenation of everything it yielded, or, when an
    exception was caught, with the error message it yielded last. The bound
    memory ends as one [add_message] of that exchange leaves it. *)
Theorem C1_generate_response_commits_once :
  forall (env : Env) (mem : Conv.ConversationManager) (question ts : string),
  exists frags answer,
    generate_response_trace env mem question = (map Yield frags ++ [Commit question answer])%list
    /\ fst (generate_response env mem question ts) = frags
    /\ snd (generate_response env mem question ts)
       = snd (Conv.add_message question answer ts mem)
    /\ (answer = join "" frags
        \/ exists e, answer = error_message e /\ last frags "" = answer).
Proof.
  intros env mem question ts.
  assert (Htr : exists frags answer,
    generate_response_trace env mem question = (map Yield frags ++ [Commit question answer])%list
    /\ (answer = join "" frags \/ exists e, answer = error_message e /\ last frags "" = answer)).
  { unfold generate_response_trace, respond.
    match goal with |- context [accumulate ?c ""] =>
      pose proof (accumulate_cases c "") as Hc; destruct (accumulate c "") as [ys [r|e]] end.
    - exists ys, r. split; [reflexivity|]. left. exact Hc.
    - exists (ys ++ [error_message e])%list, (error_message e). split.
      + rewrite map_app, <- app_assoc. reflexivity.
      + right. exists e. split; [reflexivity | apply last_last]. }
  destruct Htr as (frags & answer & Htr & Hans).
  exists frags, answer. unfold generate_response. rewrite Htr.
  split; [reflexivity|]. split; [apply flat_map_yields|]. split; [|exact Hans].
  simpl. rewrite fold_left_app, fold_yields. reflexivity.
Qed.

(** C6: a failing retrieval gives no documents; with no documents the
    context is the non-empty sentinel and generation still runs on the
    prompt built from it; with documents, the [k]-th context entry starts
    with its 1-based index [[Source k+1 - ...]. *)
Theorem C6_empty_retrieval_still_generates :
  (forall env q, retriever env q = None -> _retrieve_documents env q = [])
  /\ _prepare_context [] = no_context
  /\ no_context <> ""
  /\ (forall env mem q, _retrieve_documents env q = [] ->
        generate_response_trace env mem q
        = respond q (relay_llm (llm_astream env (format_prompt q no_context (chat_history_of mem)))))
  /\ (forall docs, docs <> [] -> _prepare_context docs = join nl (context_parts 1 docs))
  /\ (forall docs k d, nth_error docs k = Some d ->
        exists rest, nth_error (context_parts 1 docs) k
                     = Some ("[Source " ++ int_str (Z.of_nat k + 1) ++ " - " ++ rest)).
Proof.
  split; [|split; [|split; [|split; [|split]]]].
  - intros env q H. unfold _retrieve_documents. now rewrite H.
  - reflexivity.
  - discriminate.
  - intros env mem q H. unfold generate_response_trace. rewrite H. reflexivity.
  - intros [|d ds] H; [congruence | reflexivity].
  - intros docs k d H. rewrite nth_error_context_parts, H. cbn [option_map].
    replace (1 + Z.of_nat k)%Z with (Z.of_nat k + 1)%Z by lia.
    unfold context_part. eexists. reflexivity.
Qed.

(** C10: a chunk whose page metadata is the integer 0 gets the same context
    entry as the chunk without page metadata (no page annotation), while an
    integer page [p <> 0] is annotated [" (Page p)"]. *)
Theorem C10_page_zero_unannotated :
  (forall i c m1 m2,
     find (fun kv => String.eqb (fst kv) "page") m1 = None ->
     find (fun kv => String.eqb (fst kv) "page") m2 = None ->
     context_part i (mkDoc c (m1 ++ ("page", MInt 0) :: m2))
     = context_part i (mkDoc c (m1 ++ m2)))
  /\ (forall i d p, p <> 0%Z -> meta_get d "page" = Some (MInt p) ->
        exists source,
          context_part i d = "[Source " ++ int_str i ++ " - " ++ source
                             ++ " (Page " ++ int_str p ++ ")]:" ++ nl ++ page_content d ++ nl).
Proof.
  split.
  - intros i c m1 m2 H1 H2. unfold context_part, meta_get. simpl metadata.
    rewrite (find_skip_page "source") by discriminate.
    rewrite (find_app_none "page" m1 (("page", MInt 0) :: m2)) by exact H1.
    rewrite (find_app_none "page" m1 m2) by exact H1.
    rewrite H2. reflexivity.
  - intros i d p Hp Hpage. unfold context_part. rewrite Hpage.
    unfold truthy. apply Z.eqb_neq in Hp. rewrite Hp. cbn [negb mval_str].
    rewrite <- !str_app_assoc. eexists. reflexivity.
Qed.

(** Witness of C6 on a retriever that finds nothing. *)
Lemma C6_empty_retrieval_still_generates_witness :
  _retrieve_documents Inputs.empty_retriever_env "q" = []
  /\ generate_response_trace Inputs.empty_retriever_env (Conv.init 3) "q"
     = respond "q" (relay_llm (llm_astream Inputs.empty_retriever_env
         (format_prompt "q" no_context (chat_history_of (Conv.init 3)))))
  /\ _prepare_context [Inputs.sample_doc] = join nl (context_parts 1 [Inputs.sample_doc])
  /\ (exists rest, nth_error (context_parts 1 [Inputs.sample_doc; Inputs.page_four_doc]) 1
                   = Some ("[Source " ++ int_str (Z.of_nat 1 + 1) ++ " - " ++ rest)).
Proof.
  destruct C6_empty_retrieval_still_generates as (H1 & _ & _ & H4 & H5 & H6).
  assert (E : _retrieve_documents Inputs.empty_retriever_env "q" = []) by
    (apply H1; reflexivity).
  split; [exact E|]. split; [apply H4; exact E|].
  split; [apply H5; discriminate|].
  apply (H6 _ 1 Inputs.page_four_doc). reflexivity.
Defined.

(** Witness of C10: a page-0 chunk next to the same chunk without a page,
    and a chunk from page 4. *)
Lemma C10_page_zero_unannotated_witness :
  context_part 1 (mkDoc "Body" ([("source", MStr "a.pdf")] ++ ("page", MInt 0) :: []))
  = context_part 1 (mkDoc "Body" ([("source", MStr "a.pdf")] ++ []))
  /\ exists source, context_part 2 Inputs.page_four_doc
     = "[Source " ++ int_str 2 ++ " - " ++ source ++ " (Page " ++ int_str 4 ++ ")]:"
       ++ nl ++ page_content Inputs.page_four_doc ++ nl.
Proof.
  destruct C10_page_zero_unannotated as [H1 H2]. split.
  - apply H1; reflexivity.
  - apply H2; [discriminate | reflexivity].
Defined.

End RAGClaims.

(* ------------------------------------------------------------------ *)
(** ** Claims on [VectorStoreManager] *)

Module VSFacts.
Import Exc VS Doc SanitizeFacts.

Lemma lookup_none_notin k s : lookup k s = None <-> ~ In k (map fst s).
Proof.
  induction s as [|[k' v] s IH]; simpl; [tauto|].
  destruct (String.eqb k' k) eqn:E.
  - apply String.eqb_eq in E; subst. split; [discriminate | tauto].
  - apply String.eqb_neq in E. rewrite IH. intuition.
Qed.

Lemma lookup_app_absent k v s : lookup k s = None -> lookup k (s ++ [(k, v)])%list = Some v.
Proof.
  induction s as [|[k' w] s IH]; simpl.
  - now rewrite String.eqb_refl.
  - destruct (String.eqb k' k); [discriminate | exact IH].
Qed.

Lemma nodup_app_absent k v s :
  NoDup (map fst s) -> lookup k s = None -> NoDup (map fst (s ++ [(k, v)])%list).
Proof.
  intros Hn Hl. rewrite map_app. simpl. apply lookup_none_notin in Hl.
  apply NoDup_app; [exact Hn | constructor; [simpl; tauto | constructor] |].
  intros x Hx [Hy|[]]; subst; contradiction.
Qed.

Lemma map_fst_update k v s : map fst (update k v s) = map fst s.
Proof.
  induction s as [|[k' w] s IH]; simpl; [reflexivity|].
  destruct (String.eqb k' k); simpl; [reflexivity | now rewrite IH].
Qed.

Lemma lookup_update_eq k v s v0 : lookup k s = Some v0 -> lookup k (update k v s) = Some v.
Proof.
  induction s as [|[k' w] s IH]; simpl; [discriminate|].
  destruct (String.eqb k' k) eqn:E; simpl; rewrite E; [reflexivity | exact IH].
Qed.

Lemma lookup_remove k s : NoDup (map fst s) -> lookup k (remove k s) = None.
Proof.
  induction s as [|[k' w] s IH]; simpl; [reflexivity|].
  intros Hn. inversion Hn as [|? ? Hnot Hn']; subst.
  destruct (String.eqb k' k) eqn:E.
  - apply String.eqb_eq in E; subst. now apply lookup_none_notin.
  - simpl. rewrite E. now apply IH.
Qed.

Lemma map_fst_remove_incl k s x : In x (map fst (remove k s)) -> In x (map fst s).
Proof.
  induction s as [|[k' w] s IH]; simpl; [tauto|].
  destruct (String.eqb k' k); simpl; intuition.
Qed.

Lemma nodup_remove k s : NoDup (map fst s) -> NoDup (map fst (remove k s)).
Proof.
  induction s as [|[k' w] s IH]; simpl; [tauto|].
  intros Hn. inversion Hn as [|? ? Hnot Hn']; subst.
  destruct (String.eqb k' k); [exact Hn'|].
  simpl. constructor; [|now apply IH].
  intros Hin. apply Hnot. eapply map_fst_remove_incl; eauto.
Qed.

Lemma chroma_open_ok b k s : valid_name b k = true ->
  chroma_open b k s = (Ok tt, match lookup k s with Some _ => s | None => (s ++ [(k, [])])%list end).
Proof. intros H. unfold chroma_open, modify. now rewrite H. Qed.

Lemma chroma_open_bad b k s : valid_name b k = false ->
  chroma_open b k s = (Raise (ValueError "invalid collection name"), s).
Proof. intros H. unfold chroma_open, raise. now rewrite H. Qed.

(** After get-or-create, the collection is there, empty when it was absent or empty. *)
Lemma open_empty k s :
  NoDup (map fst s) -> (lookup k s = None \/ lookup k s = Some []) ->
  let s1 := match lookup k s with Some _ => s | None => (s ++ [(k, [])])%list end in
  lookup k s1 = Some [] /\ NoDup (map fst s1).
Proof.
  intros Hn [H|H]; simpl; rewrite H.
  - split; [now apply lookup_app_absent | now apply nodup_app_absent].
  - now split.
Qed.

Lemma kbe_nonempty b name s docs :
  valid_name b (sanitize name) = true -> lookup (sanitize name) s = Some docs -> docs <> [] ->
  knowledge_base_exists b name s = (Ok true, s).
Proof.
  intros Hv Hl Hd. unfold knowledge_base_exists, try_except, bind; cbv zeta.
  rewrite (chroma_open_ok _ _ _ Hv), Hl. cbv beta iota zeta delta [collection_count get ret bind]. rewrite Hl.
  destruct docs; [congruence|]. reflexivity.
Qed.

Lemma kbe_invalid b name s :
  valid_name b (sanitize name) = false -> knowledge_base_exists b name s = (Ok false, s).
Proof.
  intros Hv. unfold knowledge_base_exists, try_except, bind; cbv zeta.
  rewrite (chroma_open_bad _ _ _ Hv). reflexivity.
Qed.

Lemma kbe_empty b name s :
  valid_name b (sanitize name) = true -> NoDup (map fst s) ->
  (lookup (sanitize name) s = None \/ lookup (sanitize name) s = Some []) ->
  exists s', knowledge_base_exists b name s = (Ok false, s') /\ NoDup (map fst s')
             /\ (lookup (sanitize name) s' = None \/ lookup (sanitize name) s' = Some []).
Proof.
  intros Hv Hn Hl.
  unfold knowledge_base_exists, try_except, bind; cbv zeta.
  rewrite (chroma_open_ok _ _ _ Hv).
  cbv beta iota zeta delta [collection_count get ret bind].
  destruct (open_empty (sanitize name) s Hn Hl) as [Hl1 Hn1]. simpl in Hl1, Hn1.
  destruct Hl as [H|H]; rewrite H in *; rewrite Hl1; simpl;
  unfold collection_delete; destruct (delete_mode b);
  unfold modify, raise; eexists; (split; [reflexivity|]).
  all: first [ split; [now apply nodup_remove | left; now apply lookup_remove]
             | split; [now rewrite map_fst_update | right; eapply lookup_update_eq; eauto]
             | split; [exact Hn1 | now right] ].
Qed.

Lemma vs_sanitize_idem x : sanitize (sanitize x) = sanitize x.
Proof. apply sanitize_idem. Qed.

Lemma add_documents_empty k docs s :
  lookup k s = Some [] -> NoDup (map fst s) ->
  lookup k (snd (add_documents k docs s)) = Some docs
  /\ NoDup (map fst (snd (add_documents k docs s))).
Proof.
  intros Hl Hn. unfold add_documents, modify. simpl. rewrite Hl. simpl.
  split; [eapply lookup_update_eq; eauto | now rewrite map_fst_update].
Qed.

Lemma create_ok b name docs s h s1 :
  NoDup (map fst s) -> create_knowledge_base b name docs s = (Ok h, s1) ->
  valid_name b (sanitize name) = true /\ docs <> []
  /\ lookup (sanitize name) s1 = Some docs /\ NoDup (map fst s1)
  /\ h = mkHandle (sanitize name).
Proof.
  intros Hn H. unfold create_knowledge_base in H.
  destruct (String.eqb name "" || String.eqb (Py.strip name) ""); [discriminate H|].
  cbv zeta in H. unfold bind at 1 in H.
  destruct (valid_name b (sanitize name)) eqn:Hv.
  - assert (Hv' : valid_name b (sanitize (sanitize name)) = true) by now rewrite vs_sanitize_idem.
    destruct (lookup (sanitize name) s) as [[|d0 ds0]|] eqn:Hl.
    + destruct (kbe_empty b (sanitize name) s Hv' Hn) as (s' & E & Hn' & Hl');
        [rewrite vs_sanitize_idem; now right|].
      rewrite vs_sanitize_idem in Hl'. rewrite E in H.
      destruct docs as [|d ds]; [discriminate H|].
      unfold try_except, bind in H. rewrite (chroma_open_ok _ _ _ Hv) in H.
      destruct (open_empty (sanitize name) s' Hn' Hl') as [Hl2 Hn2].
      pose proof (add_documents_empty (sanitize name) (d :: ds) _ Hl2 Hn2) as [Hl3 Hn3].
      destruct (add_documents (sanitize name) (d :: ds) _) as [r3 s3] eqn:E3.
      unfold add_documents, modify in E3. injection E3 as <- <-.
      unfold ret in H. injection H as <- <-. simpl in Hl3, Hn3.
      repeat split; [discriminate | exact Hl3 | exact Hn3].
    + rewrite (kbe_nonempty b (sanitize name) s (d0 :: ds0)) in H;
        [discriminate H | exact Hv' | now rewrite vs_sanitize_idem | discriminate].
    + destruct (kbe_empty b (sanitize name) s Hv' Hn) as (s' & E & Hn' & Hl');
        [rewrite vs_sanitize_idem; now left|].
      rewrite vs_sanitize_idem in Hl'. rewrite E in H.
      destruct docs as [|d ds]; [discriminate H|].
      unfold try_except, bind in H. rewrite (chroma_open_ok _ _ _ Hv) in H.
      destruct (open_empty (sanitize name) s' Hn' Hl') as [Hl2 Hn2].
      pose proof (add_documents_empty (sanitize name) (d :: ds) _ Hl2 Hn2) as [Hl3 Hn3].
      destruct (add_documents (sanitize name) (d :: ds) _) as [r3 s3] eqn:E3.
      unfold add_documents, modify in E3. injection E3 as <- <-.
      unfold ret in H. injection H as <- <-. simpl in Hl3, Hn3.
      repeat split; [discriminate | exact Hl3 | exact Hn3].
  - assert (Hv' : valid_name b (sanitize (sanitize name)) = false) by now rewrite vs_sanitize_idem.
    rewrite (kbe_invalid b (sanitize name) s Hv') in H.
    destruct docs as [|d ds]; [discriminate H|].
    unfold try_except, bind in H. rewrite (chroma_open_bad _ _ _ Hv) in H. discriminate H.
Qed.

Lemma collect_in k s docs :
  lookup k s = Some docs -> docs <> [] ->
  In (mkKBInfo (Py.title (Py.replace_char "_"%char " "%char k)) k (Z.of_nat (length docs)) 0) (collect s).
Proof.
  induction s as [|[k' w] s IH]; simpl; [discriminate|].
  intros Hl Hd. destruct (String.eqb k' k) eqn:E.
  - apply String.eqb_eq in E. subst k'. injection Hl as ->.
    destruct docs as [|d ds]; [congruence|]. simpl. now left.
  - destruct (Z.of_nat (length w) >? 0)%Z; [right|]; now apply IH.
Qed.

Lemma insert_by_name_in x e l : In x (insert_by_name e l) <-> e = x \/ In x l.
Proof.
  induction l as [|h t IH]; simpl; [tauto|].
  destruct (String.ltb (kb_name e) (kb_name h)); simpl; [tauto|].
  rewrite IH. tauto.
Qed.

Lemma sort_fold_in x l acc :
  In x (fold_left (fun acc e => insert_by_name e acc) l acc) <-> In x l \/ In x acc.
Proof.
  revert acc. induction l as [|e l IH]; intros acc; simpl; [tauto|].
  rewrite IH, insert_by_name_in. intuition.
Qed.

Lemma sort_by_name_in x l : In x (sort_by_name l) <-> In x l.
Proof. unfold sort_by_name. rewrite sort_fold_in. simpl. tauto. Qed.

Lemma delete_absent b name s :
  valid_name b (sanitize name) = true -> NoDup (map fst s) ->
  (lookup (sanitize name) s = None \/ lookup (sanitize name) s = Some []) ->
  fst (delete_knowledge_base b name s) = Ok false.
Proof.
  intros Hv Hn Hl. unfold delete_knowledge_base, try_except, bind; cbv zeta.
  assert (Hv' : valid_name b (sanitize (sanitize name)) = true) by now rewrite vs_sanitize_idem.
  destruct (kbe_empty b (sanitize name) s Hv' Hn) as (s' & E & _ & _);
    [now rewrite vs_sanitize_idem|].
  rewrite E. reflexivity.
Qed.

Lemma delete_present b name s docs :
  valid_name b (sanitize name) = true -> delete_mode b <> RaiseOnDelete ->
  NoDup (map fst s) -> lookup (sanitize name) s = Some docs -> docs <> [] ->
  exists s', delete_knowledge_base b name s = (Ok true, s') /\ NoDup (map fst s')
             /\ (lookup (sanitize name) s' = None \/ lookup (sanitize name) s' = Some []).
Proof.
  intros Hv Hm Hn Hl Hd. unfold delete_knowledge_base, try_except, bind; cbv zeta.
  rewrite (kbe_nonempty b (sanitize name) s docs);
    [| now rewrite vs_sanitize_idem | now rewrite vs_sanitize_idem | exact Hd].
  simpl. rewrite (chroma_open_ok _ _ _ Hv), Hl.
  unfold collection_delete. destruct (delete_mode b); [| |congruence];
    unfold modify, ret; eexists; (split; [reflexivity|]).
  - split; [now apply nodup_remove | left; now apply lookup_remove].
  - split; [now rewrite map_fst_update | right; eapply lookup_update_eq; eauto].
Qed.

(** The probe on an absent collection, when [collection.delete()] does not
    drop collections, leaves the empty collection it created. *)
Lemma kbe_absent_leaves_empty b name s :
  valid_name b (sanitize name) = true -> delete_mode b <> DropCollection ->
  lookup (sanitize name) s = None ->
  knowledge_base_exists b name s = (Ok false, (s ++ [(sanitize name, [])])%list).
Proof.
  intros Hv Hm Hl. unfold knowledge_base_exists, try_except, bind; cbv zeta.
  rewrite (chroma_open_ok _ _ _ Hv), Hl.
  cbv beta iota zeta delta [collection_count get ret bind].
  rewrite (lookup_app_absent _ _ _ Hl). simpl.
  unfold collection_delete. destruct (delete_mode b); [congruence| |reflexivity].
  unfold modify. f_equal. clear Hv Hm.
  induction s as [|[k' w] s IH]; simpl in *; [now rewrite String.eqb_refl|].
  destruct (String.eqb k' (sanitize name)); [discriminate | now rewrite IH].
Qed.

End VSFacts.

Module VSClaims.
Import Exc VS Doc SanitizeFacts VSFacts Inputs.

(** C3 (failing input): probing ["KB1"] on a store without it answers
    [false] and leaves an empty collection ["kb1"] behind, whether
    [collection.delete()] raises for want of a filter (as [chromadb] does) or
    deletes the records: neither drops the collection. *)
Lemma C3_probe_leaves_empty_collection :
  knowledge_base_exists (chroma_backend ClearRecords) "KB1" [] = (Ok false, [("kb1", [])])
  /\ knowledge_base_exists (chroma_backend RaiseOnDelete) "KB1" [] = (Ok false, [("kb1", [])]).
Proof. split; vm_compute; reflexivity. Qed.

(** C7 (code bug): with Chroma's [collection.delete()], which raises when
    called without [ids], [where] or [where_document], a knowledge base that
    [create_knowledge_base] has just made cannot be deleted:
    [delete_knowledge_base] catches the error, returns [False] and leaves the
    store as it was, so the knowledge base still exists and is still listed
    with its chunk count. *)
Theorem C7_delete_never_removes_kb :
  forall (b : Backend) (name : string) (docs : list Document) (st : Store) (h : Handle) (st1 : Store),
  delete_mode b = RaiseOnDelete -> NoDup (map fst st) ->
  create_knowledge_base b name docs st = (Ok h, st1) ->
  let k := sanitize name in
  delete_knowledge_base b name st1 = (Ok false, st1)
  /\ knowledge_base_exists b name st1 = (Ok true, st1)
  /\ (exists l, list_knowledge_bases st1 = (Ok l, st1)
        /\ In (mkKBInfo (Py.title (Py.replace_char "_" " " k)) k (Z.of_nat (length docs)) 0) l).
Proof.
  intros b name docs st h st1 Hm Hn Hc k.
  destruct (create_ok b name docs st h st1 Hn Hc) as (Hv & Hd & Hl1 & _ & _).
  split; [|split].
  - unfold delete_knowledge_base, try_except, bind; cbv zeta.
    rewrite (kbe_nonempty b (sanitize name) st1 docs);
      [| now rewrite vs_sanitize_idem | now rewrite vs_sanitize_idem | exact Hd].
    simpl. rewrite (chroma_open_ok _ _ _ Hv), Hl1.
    unfold collection_delete. rewrite Hm. reflexivity.
  - now apply (kbe_nonempty b name st1 docs).
  - eexists. split; [reflexivity|]. apply sort_by_name_in. now apply collect_in.
Qed.

(** C8 (failing input): ["KB"] is a non-empty name and no collection
    exists, yet [create_knowledge_base] raises: its key ["kb"] has two
    characters, and Chroma refuses collection names shorter than three. *)
Lemma C8_short_name_create_fails :
  Sanitize._sanitize_collection_name "KB" = "kb"
  /\ forall mode, create_knowledge_base (chroma_backend mode) "KB" [sample_doc] []
                  = (Raise (ValueError "invalid collection name"), []).
Proof. split; [reflexivity | intros []; vm_compute; reflexivity]. Qed.

(** Witness of C7 on Chroma, one chunk, an empty store. *)
Lemma C7_delete_never_removes_kb_witness :
  delete_mode (chroma_backend RaiseOnDelete) = RaiseOnDelete
  /\ NoDup (map fst ([] : Store))
  /\ create_knowledge_base (chroma_backend RaiseOnDelete) "KB1" [sample_doc] []
     = (Ok (mkHandle "kb1"), [("kb1", [sample_doc])])
  /\ delete_knowledge_base (chroma_backend RaiseOnDelete) "KB1" [("kb1", [sample_doc])]
     = (Ok false, [("kb1", [sample_doc])])
  /\ knowledge_base_exists (chroma_backend RaiseOnDelete) "KB1" [("kb1", [sample_doc])]
     = (Ok true, [("kb1", [sample_doc])]).
Proof.
  assert (Hm : delete_mode (chroma_backend RaiseOnDelete) = RaiseOnDelete) by reflexivity.
  assert (Hn : NoDup (map fst ([] : Store))) by constructor.
  assert (Hc : create_knowledge_base (chroma_backend RaiseOnDelete) "KB1" [sample_doc] []
               = (Ok (mkHandle "kb1"), [("kb1", [sample_doc])])) by (vm_compute; reflexivity).
  destruct (C7_delete_never_removes_kb _ _ _ _ _ _ Hm Hn Hc) as (E1 & E2 & _).
  split; [exact Hm|]. split; [exact Hn|]. split; [exact Hc|]. split; [exact E1 | exact E2].
Defined.

End VSClaims.

(* ================================================================== *)
(** * Further properties of the code *)

Module SanitizeMore.
Import Py Sanitize SanitizeFacts.

Lemma isspace_lower_char c : isspace (lower_char c) = isspace c.
Proof. ascii_cases c. Qed.
Lemma keep_char_lower c : keep_char (lower_char c) = lower_char (keep_char c).
Proof. ascii_cases c. Qed.
Lemma lower_char_title (b : bool) (c : ascii) :
  lower_char (if is_cased c then (if b then lower_char c else upper_char c) else c) = lower_char c.
Proof. destruct b; ascii_cases c. Qed.
Lemma keep_char_replace c :
  allowed c = true -> keep_char (if Ascii.eqb c "_"%char then " "%char else c) = c.
Proof. destruct c as [[] [] [] [] [] [] [] []]; vm_compute; congruence. Qed.
Lemma replace_not_space c :
  allowed c = true -> Ascii.eqb c "_"%char = false -> isspace c = false.
Proof. intros H _. now apply allowed_not_space. Qed.
Lemma alnum_not_underscore c : isalnum c = true -> Ascii.eqb c "_"%char = false.
Proof. destruct c as [[] [] [] [] [] [] [] []]; vm_compute; congruence. Qed.
Lemma alnum_not_space c : isalnum c = true -> isspace c = false.
Proof. destruct c as [[] [] [] [] [] [] [] []]; vm_compute; congruence. Qed.
Lemma lower_char_not_upper c : lower_char (lower_char c) = lower_char c.
Proof. apply lower_char_idem. Qed.

Lemma lstrip_lower s : lstrip (lower s) = lower (lstrip s).
Proof.
  induction s as [|c s IH]; simpl; [reflexivity|].
  rewrite isspace_lower_char. destruct (isspace c); [exact IH | reflexivity].
Qed.
Lemma rev_str_lower s : rev_str (lower s) = lower (rev_str s).
Proof. induction s as [|c s IH]; simpl; [reflexivity|]. now rewrite lower_app, IH. Qed.
Lemma strip_lower s : strip (lower s) = lower (strip s).
Proof.
  unfold strip, rstrip. now rewrite lstrip_lower, rev_str_lower, lstrip_lower, rev_str_lower.
Qed.
Lemma map_chars_lower s : map_chars (lower s) = lower (map_chars s).
Proof. induction s as [|c s IH]; simpl; [reflexivity|]. now rewrite keep_char_lower, IH. Qed.

Lemma sanitize_lower x : _sanitize_collection_name (lower x) = _sanitize_collection_name x.
Proof.
  unfold _sanitize_collection_name.
  rewrite strip_lower, map_chars_lower.
  destruct (map_chars (strip x)) as [|c r]; [reflexivity|].
  simpl lower at 1. rewrite lower_char_alnum.
  destruct (isalnum c); simpl.
  - now rewrite lower_char_idem, lower_idem.
  - now rewrite lower_char_idem, lower_idem.
Qed.

Lemma lower_title_aux b s : lower (title_aux b s) = lower s.
Proof.
  revert b; induction s as [|c s IH]; intros b; simpl; [reflexivity|].
  now rewrite lower_char_title, IH.
Qed.
Lemma sanitize_title s : _sanitize_collection_name (title s) = _sanitize_collection_name s.
Proof.
  rewrite <- (sanitize_lower (title s)), <- (sanitize_lower s).
  unfold title. now rewrite lower_title_aux.
Qed.

(** Facts on a sanitized name. *)
Lemma sanitized_shape c :
  _sanitize_collection_name c = c ->
  all_chars allowed c = true /\ lower c = c /\ starts_alnum c = true.
Proof.
  intros Hc. destruct (sanitize_shape c) as (t & Ht & Hall & Hst).
  rewrite Hc in Ht. subst c.
  split; [now rewrite lower_all_allowed | split; [apply lower_idem | now rewrite lower_starts_alnum]].
Qed.

Lemma map_chars_replace s :
  all_chars allowed s = true -> map_chars (replace_char "_"%char " "%char s) = s.
Proof.
  induction s as [|c s IH]; simpl; [reflexivity|].
  intros H; apply andb_prop in H as [H1 H2]. now rewrite keep_char_replace, IH.
Qed.

Lemma last_char_split s x : VS.last_char s = Some x -> exists u, s = u ++ String x "".
Proof.
  induction s as [|c s IH]; simpl; [discriminate|].
  destruct s as [|c' s'].
  - intros [= ->]. exists "". reflexivity.
  - intros H. destruct (IH H) as [u Hu]. exists (String c u). simpl. now rewrite <- Hu.
Qed.

Lemma last_char_some a r : exists x, VS.last_char (String a r) = Some x.
Proof.
  revert a; induction r as [|c r IH]; intros a; [now exists a|].
  destruct (IH c) as [x Hx]. exists x. exact Hx.
Qed.

Lemma replace_char_app a b u v :
  replace_char a b (u ++ v) = replace_char a b u ++ replace_char a b v.
Proof. induction u as [|c u IH]; simpl; [reflexivity | now rewrite IH]. Qed.

Lemma lstrip_app_last u x :
  isspace x = false -> exists w, lstrip (u ++ String x "") = w ++ String x "".
Proof.
  intros Hx. induction u as [|c u IH]; simpl.
  - rewrite Hx. exists "". reflexivity.
  - destruct (isspace c); [exact IH|]. exists (String c u). reflexivity.
Qed.

Lemma strip_first a t :
  isspace a = false -> exists w, strip (String a t) = String a w.
Proof.
  intros Ha. unfold strip, rstrip. simpl lstrip. rewrite Ha. simpl rev_str.
  destruct (lstrip_app_last (rev_str t) a Ha) as [w Hw]. rewrite Hw, rev_str_app.
  simpl. exists (rev_str w). reflexivity.
Qed.

Lemma str_length_app a b : String.length (a ++ b) = String.length a + String.length b.
Proof. induction a; simpl; auto. Qed.
Lemma length_rev_str s : String.length (rev_str s) = String.length s.
Proof. induction s; simpl; [reflexivity|]. rewrite str_length_app; simpl. lia. Qed.
Lemma length_lstrip s : String.length (lstrip s) <= String.length s.
Proof. induction s as [|c s IH]; simpl; [lia|]. destruct (isspace c); simpl; lia. Qed.
Lemma length_map_chars s : String.length (map_chars s) = String.length s.
Proof. induction s; simpl; auto. Qed.
Lemma length_lower s : String.length (lower s) = String.length s.
Proof. induction s; simpl; auto. Qed.

Lemma lstrip_first a t : isspace a = false -> lstrip (String a t) = String a t.
Proof. intros H. simpl. now rewrite H. Qed.

(** The display name of a sanitized collection name is sanitized back to
    it exactly when the name does not end with [_]. *)
Lemma sanitize_display c :
  _sanitize_collection_name c = c ->
  (_sanitize_collection_name (title (replace_char "_"%char " "%char c)) = c <-> VS.last_char c <> Some "_"%char).
Proof.
  intros Hc. destruct (sanitized_shape c Hc) as (Hall & Hlow & Hst).
  rewrite sanitize_title.
  destruct c as [|a r]; [discriminate|]. simpl in Hst.
  assert (Hspace : isspace a = false) by now apply alnum_not_space.
  assert (Hu : Ascii.eqb a "_"%char = false) by now apply alnum_not_underscore.
  assert (E : replace_char "_"%char " "%char (String a r) = String a (replace_char "_"%char " "%char r))
    by (simpl; now rewrite Hu).
  split.
  - intros Heq Hlast. apply last_char_split in Hlast as [u Hu'].
    assert (Hrep : replace_char "_"%char " "%char (String a r) = replace_char "_"%char " "%char u ++ " ").
    { rewrite Hu', replace_char_app. reflexivity. }
    simpl replace_char in Heq. rewrite Hu in Heq.
    destruct (strip_first a (replace_char "_"%char " "%char r) Hspace) as [w Hw].
    assert (Hlen : String.length (String a w) < String.length (String a r)).
    { rewrite <- Hw. unfold strip, rstrip. rewrite lstrip_first by exact Hspace.
      rewrite <- E, Hrep, rev_str_app. simpl.
      rewrite length_rev_str.
      pose proof (length_lstrip (rev_str (replace_char "_"%char " "%char u))) as L.
      rewrite length_rev_str in L.
      assert (String.length (String a r) = String.length u + 1)
        by (rewrite Hu', str_length_app; reflexivity).
      assert (String.length (replace_char "_"%char " "%char u) = String.length u)
        by (clear; induction u; simpl; auto).
      simpl in H. lia. }
    unfold _sanitize_collection_name in Heq. rewrite Hw in Heq. simpl map_chars in Heq.
    simpl in Hall. apply andb_prop in Hall as [Ha _].
    rewrite (keep_char_id a Ha), Hst in Heq. simpl negb in Heq. cbv iota in Heq.
    apply (f_equal String.length) in Heq.
    rewrite length_lower in Heq. simpl in Heq. rewrite length_map_chars in Heq.
    simpl in Hlen. lia.
  - intros Hlast.
    assert (Hstrip : strip (replace_char "_"%char " "%char (String a r)) = replace_char "_"%char " "%char (String a r)).
    { unfold strip, rstrip. simpl replace_char. rewrite Hu.
      rewrite lstrip_first by exact Hspace.
      rewrite <- E.
      destruct (last_char_some a r) as [x Hx]. rewrite Hx in Hlast.
      destruct (last_char_split _ _ Hx) as [u Hu'].
      rewrite Hu', replace_char_app. simpl replace_char.
      assert (Hxa : allowed x = true).
      { rewrite Hu', all_chars_app in Hall. apply andb_prop in Hall as [_ Hall].
        simpl in Hall. now rewrite andb_true_r in Hall. }
      assert (Hx_ : Ascii.eqb x "_"%char = false).
      { destruct (Ascii.eqb x "_"%char) eqn:Ex; [|reflexivity].
        apply Ascii.eqb_eq in Ex. subst x. congruence. }
      rewrite Hx_. rewrite rev_str_app. simpl.
      rewrite (allowed_not_space x Hxa).
      simpl rev_str. now rewrite rev_str_involutive. }
    unfold _sanitize_collection_name. rewrite Hstrip, (map_chars_replace _ Hall).
    simpl negb. rewrite Hst. simpl. exact Hlow.
Qed.

End SanitizeMore.

Module SanitizeExtra.
Import Py Sanitize SanitizeMore.

(** X9: on ASCII names, sanitization ignores letter case: lower-casing or
    title-casing a name first does not change its key. (Off ASCII, Python's
    [str.lower] and [str.title] can change the length of a name, as for
    ["\u0130"] or ["\u00df"], which this model does not cover.) *)
Theorem X_sanitize_ignores_case x :
  is_ascii x = true ->
  _sanitize_collection_name (lower x) = _sanitize_collection_name x
  /\ _sanitize_collection_name (title x) = _sanitize_collection_name x.
Proof. intros _. split; [apply sanitize_lower | apply sanitize_title]. Qed.

(** X9 on ["Test KB"]. *)
Lemma X_sanitize_ignores_case_witness :
  is_ascii "Test KB" = true
  /\ _sanitize_collection_name (lower "Test KB") = _sanitize_collection_name "Test KB"
  /\ _sanitize_collection_name (title "Test KB") = _sanitize_collection_name "Test KB".
Proof.
  assert (H : is_ascii "Test KB" = true) by reflexivity.
  split; [exact H | exact (X_sanitize_ignores_case "Test KB" H)].
Defined.

End SanitizeExtra.

Module VSMoreFacts.
Import Exc VS Doc VSMore VSFacts SanitizeFacts.

(** Frame lemmas. *)
Lemma to_ret {A} k (a : A) : touches_only k (ret a).
Proof. intros s k' _. reflexivity. Qed.
Lemma to_raise {A} k e : touches_only k (@raise _ A e).
Proof. intros s k' _. reflexivity. Qed.
Lemma to_get k : touches_only k get.
Proof. intros s k' _. reflexivity. Qed.
Lemma to_bind {A B} k (m : VM A) (f : A -> VM B) :
  touches_only k m -> (forall a, touches_only k (f a)) -> touches_only k (bind m f).
Proof.
  intros Hm Hf s k' H. unfold bind. specialize (Hm s k' H).
  destruct (m s) as [[a|e] s1]; simpl in *; [now rewrite Hf | exact Hm].
Qed.
Lemma to_try {A} k (m : VM A) (h : exn -> VM A) :
  touches_only k m -> (forall e, touches_only k (h e)) -> touches_only k (try_except m h).
Proof.
  intros Hm Hh s k' H. unfold try_except. specialize (Hm s k' H).
  destruct (m s) as [[a|e] s1]; simpl in *; [exact Hm | now rewrite Hh].
Qed.

Lemma lookup_app_other k k' v s :
  k' <> k -> lookup k s = None -> lookup k' (s ++ [(k, v)])%list = lookup k' s.
Proof.
  intros Hk _. induction s as [|[k0 w] s IH]; simpl.
  - apply String.eqb_neq in Hk. now rewrite String.eqb_sym, Hk.
  - destruct (String.eqb k0 k'); [reflexivity | exact IH].
Qed.
Lemma lookup_update_other k k' v s : k' <> k -> lookup k' (update k v s) = lookup k' s.
Proof.
  intros Hk. induction s as [|[k0 w] s IH]; simpl; [reflexivity|].
  destruct (String.eqb k0 k) eqn:E; simpl.
  - apply String.eqb_eq in E; subst k0.
    assert (String.eqb k k' = false) as -> by (apply String.eqb_neq; congruence). reflexivity.
  - destruct (String.eqb k0 k'); [reflexivity | exact IH].
Qed.
Lemma lookup_remove_other k k' s : k' <> k -> lookup k' (remove k s) = lookup k' s.
Proof.
  intros Hk. induction s as [|[k0 w] s IH]; simpl; [reflexivity|].
  destruct (String.eqb k0 k) eqn:E; simpl.
  - apply String.eqb_eq in E; subst k0.
    assert (String.eqb k k' = false) as -> by (apply String.eqb_neq; congruence). reflexivity.
  - destruct (String.eqb k0 k'); [reflexivity | exact IH].
Qed.

Lemma to_open b k : touches_only k (chroma_open b k).
Proof.
  intros s k' H. unfold chroma_open. destruct (valid_name b k); [|reflexivity].
  unfold modify; simpl. destruct (lookup k s) eqn:E; [reflexivity|].
  now apply lookup_app_other.
Qed.
Lemma to_delete b k : touches_only k (collection_delete b k).
Proof.
  intros s k' H. unfold collection_delete. destruct (delete_mode b); simpl.
  - now apply lookup_remove_other.
  - now apply lookup_update_other.
  - reflexivity.
Qed.
Lemma to_add k docs : touches_only k (add_documents k docs).
Proof.
  intros s k' H. unfold add_documents, modify; simpl.
  destruct (lookup k s); [now apply lookup_update_other | reflexivity].
Qed.
Lemma to_count k : touches_only k (collection_count k).
Proof. unfold collection_count. apply to_bind; [apply to_get | intros; apply to_ret]. Qed.

Create HintDb frame.
#[local] Hint Resolve to_ret to_raise to_get to_open to_delete to_add to_count : frame.

Ltac frame :=
  repeat first [ progress intros
               | solve [eauto with frame]
               | apply to_bind
               | apply to_try
               | match goal with |- touches_only _ (match ?x with _ => _ end) => destruct x end
               | match goal with |- touches_only _ (if ?x then _ else _) => destruct x end ].

Lemma kbe_frame b name : touches_only (sanitize name) (knowledge_base_exists b name).
Proof. unfold knowledge_base_exists. frame. Qed.

Lemma kbe_frame' b name :
  touches_only (sanitize name) (knowledge_base_exists b (sanitize name)).
Proof. pose proof (kbe_frame b (sanitize name)) as H. now rewrite vs_sanitize_idem in H. Qed.
#[local] Hint Resolve kbe_frame' : frame.

Lemma create_frame b name docs :
  touches_only (sanitize name) (create_knowledge_base b name docs).
Proof. unfold create_knowledge_base. frame. Qed.
Lemma delete_frame b name :
  touches_only (sanitize name) (delete_knowledge_base b name).
Proof. unfold delete_knowledge_base. frame. Qed.
Lemma gkb_frame b name : touches_only (sanitize name) (get_knowledge_base b name).
Proof. unfold get_knowledge_base. frame. Qed.
#[local] Hint Resolve gkb_frame : frame.

Lemma gkb_handle b name s h s1 :
  get_knowledge_base b name s = (Ok (Some h), s1) -> h = mkHandle (sanitize name).
Proof.
  unfold get_knowledge_base, bind, try_except, ret.
  destruct (knowledge_base_exists b (sanitize name) s) as [[[]|e] s0]; simpl; try discriminate.
  destruct (chroma_open b (sanitize name) s0) as [[[]|e] s2]; simpl; try discriminate.
  now intros [= <- _].
Qed.

Lemma to_bind_dep {A B} k (m : VM A) (f : A -> VM B) :
  touches_only k m ->
  (forall a s s', m s = (Ok a, s') -> forall k', k' <> k -> lookup k' (snd (f a s')) = lookup k' s') ->
  touches_only k (bind m f).
Proof.
  intros Hm Hf s k' H. unfold bind. specialize (Hm s k' H).
  destruct (m s) as [[a|e] s1] eqn:E; simpl in *; [|exact Hm].
  rewrite (Hf a s s1 E k' H). exact Hm.
Qed.

Lemma add_kb_frame b name docs :
  touches_only (sanitize name) (add_documents_to_knowledge_base b name docs).
Proof.
  unfold add_documents_to_knowledge_base. apply to_bind_dep; [apply gkb_frame|].
  intros [h|] s s' E; [|intros; reflexivity].
  rewrite (gkb_handle _ _ _ _ _ E). simpl handle_collection.
  apply to_try; [apply to_bind; [apply to_add | intros; apply to_ret] | intros; apply to_ret].
Qed.
Lemma stats_frame b dir name :
  touches_only (sanitize name) (get_knowledge_base_stats b dir name).
Proof.
  unfold get_knowledge_base_stats. apply to_bind_dep; [apply gkb_frame|].
  intros [h|] s s' E; [|intros; reflexivity].
  rewrite (gkb_handle _ _ _ _ _ E). simpl handle_collection.
  apply to_try; [apply to_bind; [apply to_count | intros; apply to_ret] | intros; apply to_ret].
Qed.

(** [get_knowledge_base] on a collection holding records. *)
Lemma gkb_present b name s docs :
  valid_name b (sanitize name) = true -> lookup (sanitize name) s = Some docs -> docs <> [] ->
  get_knowledge_base b name s = (Ok (Some (mkHandle (sanitize name))), s).
Proof.
  intros Hv Hl Hd. unfold get_knowledge_base, bind; cbv zeta.
  rewrite (kbe_nonempty b (sanitize name) s docs); try (rewrite vs_sanitize_idem; assumption); [|exact Hd].
  simpl. unfold try_except, bind. rewrite (chroma_open_ok _ _ _ Hv), Hl. reflexivity.
Qed.

Lemma gkb_absent b name s :
  valid_name b (sanitize name) = true -> NoDup (map fst s) ->
  (lookup (sanitize name) s = None \/ lookup (sanitize name) s = Some []) ->
  exists s', get_knowledge_base b name s = (Ok None, s') /\ NoDup (map fst s')
             /\ (lookup (sanitize name) s' = None \/ lookup (sanitize name) s' = Some []).
Proof.
  intros Hv Hn Hl.
  rewrite <- vs_sanitize_idem in Hv, Hl.
  destruct (kbe_empty b (sanitize name) s Hv Hn Hl) as (s' & E & Hn' & Hl').
  rewrite vs_sanitize_idem in Hl'.
  exists s'. unfold get_knowledge_base, bind; cbv zeta. rewrite E. auto.
Qed.

Lemma gkb_invalid b name s :
  valid_name b (sanitize name) = false -> get_knowledge_base b name s = (Ok None, s).
Proof.
  intros Hv. unfold get_knowledge_base, bind; cbv zeta.
  rewrite kbe_invalid by now rewrite vs_sanitize_idem. reflexivity.
Qed.

(** Listing. *)
Lemma insert_by_name_perm e l : Permutation (insert_by_name e l) (e :: l).
Proof.
  induction l as [|h t IH]; simpl; [reflexivity|].
  destruct (String.ltb (kb_name e) (kb_name h)); [reflexivity|].
  rewrite IH. apply perm_swap.
Qed.
Lemma sort_fold_perm l acc :
  Permutation (fold_left (fun acc e => insert_by_name e acc) l acc) (rev l ++ acc).
Proof.
  revert acc; induction l as [|x l IH]; intros acc; simpl; [reflexivity|].
  rewrite IH, insert_by_name_perm, <- app_assoc. reflexivity.
Qed.
Lemma sort_by_name_perm l : Permutation (sort_by_name l) l.
Proof.
  unfold sort_by_name. rewrite sort_fold_perm, app_nil_r. apply Permutation_sym, Permutation_rev.
Qed.

Lemma ltb_asym a c : String.ltb a c = true -> String.ltb c a = false.
Proof.
  unfold String.ltb. rewrite String.compare_antisym.
  destruct (String.compare c a); simpl; congruence.
Qed.

Lemma insert_hd h e t :
  HdRel name_le h t -> name_le h e -> HdRel name_le h (insert_by_name e t).
Proof.
  intros H1 H2. destruct t as [|h' t']; simpl.
  - now constructor.
  - destruct (String.ltb (kb_name e) (kb_name h')); [now constructor|].
    inversion H1; subst. now constructor.
Qed.

Lemma insert_sorted e l : Sorted name_le l -> Sorted name_le (insert_by_name e l).
Proof.
  induction l as [|h t IH]; intros Hs; simpl.
  - repeat constructor.
  - destruct (String.ltb (kb_name e) (kb_name h)) eqn:E.
    + constructor; [exact Hs|]. constructor. unfold name_le. now apply ltb_asym.
    + inversion Hs; subst. constructor; [now apply IH|].
      apply insert_hd; [assumption | exact E].
Qed.

Lemma sort_by_name_sorted l : Sorted name_le (sort_by_name l).
Proof.
  unfold sort_by_name.
  assert (H : forall acc, Sorted name_le acc ->
             Sorted name_le (fold_left (fun acc e => insert_by_name e acc) l acc)).
  { induction l as [|x l IH]; intros acc Hacc; simpl; [exact Hacc|].
    apply IH, insert_sorted, Hacc. }
  apply H. constructor.
Qed.

Lemma in_collect e s :
  In e (collect s) ->
  exists c docs, In (c, docs) s /\ docs <> [] /\
     e = mkKBInfo (VSMore.display_name c) c (Z.of_nat (length docs)) 0.
Proof.
  induction s as [|[c docs] s IH]; simpl; [tauto|].
  destruct (Z.of_nat (length docs) >? 0)%Z eqn:E.
  - intros [H|H].
    + exists c, docs. split; [now left|]. split; [|now rewrite <- H].
      intros ->. discriminate E.
    + destruct (IH H) as (c' & d' & ?). exists c', d'. tauto.
  - intros H. destruct (IH H) as (c' & d' & ?). exists c', d'. tauto.
Qed.

Lemma in_lookup c docs s : NoDup (map fst s) -> In (c, docs) s -> lookup c s = Some docs.
Proof.
  induction s as [|[k v] s IH]; simpl; [tauto|].
  intros Hn [H|H]; inversion Hn; subst.
  - injection H as -> ->. now rewrite String.eqb_refl.
  - destruct (String.eqb k c) eqn:E; [|now apply IH].
    apply String.eqb_eq in E; subst k. exfalso. apply H2.
    now apply (in_map fst) in H.
Qed.

Lemma collect_names s : map kb_collection_name (collect s) = map fst (filter (fun kv => negb (match snd kv with [] => true | _ => false end)) s).
Proof.
  induction s as [|[c docs] s IH]; simpl; [reflexivity|].
  destruct docs; simpl; [exact IH|]. now rewrite IH.
Qed.

Lemma nodup_filter_fst {B} (f : string * B -> bool) s :
  NoDup (map fst s) -> NoDup (map fst (filter f s)).
Proof.
  induction s as [|x s IH]; simpl; [auto|].
  intros Hn; inversion Hn; subst. destruct (f x); simpl; [|auto].
  constructor; [|auto]. intros Hin. apply H1.
  apply in_map_iff in Hin as (y & Hy & Hin). apply filter_In in Hin as [Hin _].
  rewrite <- Hy. now apply in_map.
Qed.

End VSMoreFacts.

Module VSExtra.
Import Exc VS Doc VSMore VSFacts SanitizeFacts VSMoreFacts.

Lemma strip_nonblank name : Py.strip name <> "" ->
  (String.eqb name "" || String.eqb (Py.strip name) "") = false.
Proof.
  intros H. destruct name as [|c r]; [now contradiction H|].
  simpl orb. now apply String.eqb_neq.
Qed.

(** X1: every knowledge-base operation on a name changes at most the
    collection of its sanitized key: [knowledge_base_exists],
    [create_knowledge_base], [delete_knowledge_base], [get_knowledge_base],
    [add_documents_to_knowledge_base] and [get_knowledge_base_stats] leave
    every other collection as it was, and [list_knowledge_bases] changes
    nothing. This holds for ASCII names, on which sanitizing a key again
    leaves it unchanged. *)
Theorem X_store_ops_touch_only_their_collection :
  forall b name docs dir,
  Py.is_ascii name = true ->
  touches_only (sanitize name) (knowledge_base_exists b name)
  /\ touches_only (sanitize name) (create_knowledge_base b name docs)
  /\ touches_only (sanitize name) (delete_knowledge_base b name)
  /\ touches_only (sanitize name) (get_knowledge_base b name)
  /\ touches_only (sanitize name) (add_documents_to_knowledge_base b name docs)
  /\ touches_only (sanitize name) (get_knowledge_base_stats b dir name)
  /\ (forall s, snd (list_knowledge_bases s) = s).
Proof.
  intros b name docs dir _. repeat split;
    [apply kbe_frame | apply create_frame | apply delete_frame | apply gkb_frame
    | apply add_kb_frame | apply stats_frame].
Qed.

(** X2: on a store with distinct collection names, [list_knowledge_bases]
    returns exactly one entry per non-empty collection (display name, key,
    chunk count, creation time 0), sorted by display name, with no key twice,
    and leaves the store as it was. *)
Theorem X_list_knowledge_bases_exact_sorted :
  forall s, NoDup (map fst s) ->
  exists l, list_knowledge_bases s = (Ok l, s)
  /\ (forall e, In e l <-> exists c docs, lookup c s = Some docs /\ docs <> []
                     /\ e = mkKBInfo (display_name c) c (Z.of_nat (length docs)) 0)
  /\ Sorted name_le l
  /\ NoDup (map kb_collection_name l).
Proof.
  intros s Hn. exists (sort_by_name (collect s)). split; [reflexivity|].
  split; [|split; [apply sort_by_name_sorted|]].
  - intros e. rewrite sort_by_name_in. split.
    + intros H. destruct (in_collect e s H) as (c & docs & Hin & Hd & ->).
      exists c, docs. split; [now apply in_lookup | auto].
    + intros (c & docs & Hl & Hd & ->). now apply collect_in.
  - apply (Permutation_NoDup (Permutation_map _ (Permutation_sym (sort_by_name_perm _)))).
    rewrite collect_names. now apply nodup_filter_fst.
Qed.

(** X3: the display name of a sanitized key sanitizes back to the key
    exactly when the key does not end with [_]: a key such as ["proj_"] is
    listed as ["Proj "], which sanitizes to ["proj"]. *)
Theorem X_display_name_roundtrip :
  forall c, sanitize c = c ->
  (sanitize (display_name c) = c <-> last_char c <> Some "_"%char).
Proof. intros c Hc. apply SanitizeMore.sanitize_display, Hc. Qed.

(** X4: every name [get_available_knowledge_bases] offers is the display
    name of a listed collection; when the key does not end with [_], passing
    that name back to [get_knowledge_base] opens that collection and
    [delete_knowledge_base] deletes it (unless the backend's delete raises);
    when it ends with [_], the name sanitizes to a different key. *)
Theorem X_available_name_selects_its_collection :
  forall b s l n,
  NoDup (map fst s) ->
  Forall (fun kv => sanitize (fst kv) = fst kv /\ valid_name b (fst kv) = true) s ->
  get_available_knowledge_bases s = (Ok l, s) -> In n l ->
  exists c docs, lookup c s = Some docs /\ docs <> [] /\ n = display_name c
  /\ (last_char c <> Some "_"%char ->
        get_knowledge_base b n s = (Ok (Some (mkHandle c)), s)
        /\ (delete_mode b <> RaiseOnDelete -> fst (delete_knowledge_base b n s) = Ok true))
  /\ (last_char c = Some "_"%char -> sanitize n <> c).
Proof.
  intros b s l n Hn Hall Hget Hin.
  unfold get_available_knowledge_bases, try_except, bind, list_knowledge_bases, get, ret in Hget.
  injection Hget as <-.
  apply in_map_iff in Hin as (e & <- & Hin).
  apply (proj1 (sort_by_name_in _ _)) in Hin.
  destruct (in_collect e s Hin) as (c & docs & Hcin & Hd & ->). simpl kb_name.
  rewrite Forall_forall in Hall. destruct (Hall (c, docs) Hcin) as [Hsc Hv]. simpl in Hsc, Hv.
  pose proof (in_lookup c docs s Hn Hcin) as Hl.
  exists c, docs. split; [exact Hl|]. split; [exact Hd|]. split; [reflexivity|]. split.
  - intros Hlast. apply (SanitizeMore.sanitize_display c Hsc) in Hlast.
    change (Py.title (Py.replace_char "_" " " c)) with (display_name c) in Hlast.
    change (sanitize (display_name c) = c) in Hlast.
    split.
    + rewrite <- Hlast at 2. apply gkb_present with docs; try rewrite Hlast; assumption.
    + intros Hm. destruct (delete_present b (display_name c) s docs) as (s' & E & _);
        try (try rewrite Hlast; assumption). now rewrite E.
  - intros Hlast Heq. change (sanitize (display_name c) = c) in Heq.
    apply (SanitizeMore.sanitize_display c Hsc) in Heq. contradiction.
Qed.

(** X5: [add_documents_to_knowledge_base] appends the chunks to an existing
    non-empty collection whose key Chroma accepts and returns [True]; when
    Chroma refuses the key (as ["kb"], shorter than three characters) it
    returns [False] and leaves the store as it was; for an accepted key
    whose collection is absent or empty it returns [False] and leaves the key
    absent or empty. *)
Theorem X_add_documents_appends_or_refuses :
  forall b name docs s,
  NoDup (map fst s) ->
  (valid_name b (sanitize name) = true ->
   forall docs0, lookup (sanitize name) s = Some docs0 -> docs0 <> [] ->
     add_documents_to_knowledge_base b name docs s
     = (Ok true, update (sanitize name) (docs0 ++ docs)%list s)
     /\ lookup (sanitize name) (update (sanitize name) (docs0 ++ docs)%list s) = Some (docs0 ++ docs)%list)
  /\ (valid_name b (sanitize name) = false ->
      add_documents_to_knowledge_base b name docs s = (Ok false, s))
  /\ (valid_name b (sanitize name) = true ->
      (lookup (sanitize name) s = None \/ lookup (sanitize name) s = Some []) ->
      exists s', add_documents_to_knowledge_base b name docs s = (Ok false, s')
      /\ (lookup (sanitize name) s' = None \/ lookup (sanitize name) s' = Some [])).
Proof.
  intros b name docs s Hn. split; [|split].
  - intros Hv docs0 Hl Hd. split; [|eapply lookup_update_eq; exact Hl].
    unfold add_documents_to_knowledge_base, bind.
    rewrite (gkb_present b name s docs0 Hv Hl Hd). simpl.
    unfold try_except, bind, add_documents, modify, ret. rewrite Hl. reflexivity.
  - intros Hv. unfold add_documents_to_knowledge_base, bind.
    rewrite (gkb_invalid b name s Hv). reflexivity.
  - intros Hv Hl. destruct (gkb_absent b name s Hv Hn Hl) as (s' & E & _ & Hl').
    exists s'. unfold add_documents_to_knowledge_base, bind. rewrite E. auto.
Qed.

(** X6: [get_knowledge_base_stats] of an existing non-empty collection
    whose key Chroma accepts reports its chunk count, the given name, its
    sanitized key and the persist directory, without changing the store;
    when Chroma refuses the key it returns [None] and leaves the store as it
    was; for an accepted key whose collection is absent or empty it returns
    [None]. *)
Theorem X_kb_stats_counts_records :
  forall b dir name s,
  NoDup (map fst s) ->
  (valid_name b (sanitize name) = true ->
   forall docs0, lookup (sanitize name) s = Some docs0 -> docs0 <> [] ->
     get_knowledge_base_stats b dir name s
     = (Ok (Some (mkKBStats name (Z.of_nat (length docs0)) (sanitize name) dir)), s))
  /\ (valid_name b (sanitize name) = false ->
      get_knowledge_base_stats b dir name s = (Ok None, s))
  /\ (valid_name b (sanitize name) = true ->
      (lookup (sanitize name) s = None \/ lookup (sanitize name) s = Some []) ->
      fst (get_knowledge_base_stats b dir name s) = Ok None).
Proof.
  intros b dir name s Hn. split; [|split].
  - intros Hv docs0 Hl Hd. unfold get_knowledge_base_stats, bind.
    rewrite (gkb_present b name s docs0 Hv Hl Hd). simpl.
    unfold try_except, bind, collection_count, get, ret. rewrite Hl. reflexivity.
  - intros Hv. unfold get_knowledge_base_stats, bind.
    rewrite (gkb_invalid b name s Hv). reflexivity.
  - intros Hv Hl. destruct (gkb_absent b name s Hv Hn Hl) as (s' & E & _).
    unfold get_knowledge_base_stats, bind. rewrite E. reflexivity.
Qed.

Lemma create_exists b name docs docs0 s :
  valid_name b (sanitize name) = true -> Py.strip name <> "" ->
  lookup (sanitize name) s = Some docs0 -> docs0 <> [] ->
  create_knowledge_base b name docs s
  = (Raise (ValueError ("Knowledge base '" ++ name ++ "' already exists")), s).
Proof.
  intros Hv Hs Hl Hd. unfold create_knowledge_base. rewrite (strip_nonblank _ Hs).
  cbv zeta. unfold bind at 1.
  rewrite (kbe_nonempty b (sanitize name) s docs0); try (rewrite vs_sanitize_idem; assumption);
    [reflexivity | exact Hd].
Qed.

(** X7: [create_knowledge_base] raises ["Knowledge base '<name>' already
    exists"] and leaves the store as it was whenever the sanitized key holds
    a non-empty collection, for every name with that key. *)
Theorem X_create_refuses_taken_key :
  forall b name docs docs0 s,
  valid_name b (sanitize name) = true -> Py.strip name <> "" ->
  lookup (sanitize name) s = Some docs0 -> docs0 <> [] ->
  create_knowledge_base b name docs s
  = (Raise (ValueError ("Knowledge base '" ++ name ++ "' already exists")), s)
  /\ (forall name2 docs2, sanitize name2 = sanitize name -> Py.strip name2 <> "" ->
        create_knowledge_base b name2 docs2 s
        = (Raise (ValueError ("Knowledge base '" ++ name2 ++ "' already exists")), s)).
Proof.
  intros b name docs docs0 s Hv Hs Hl Hd. split; [now apply create_exists with docs0|].
  intros name2 docs2 Heq Hs2. apply create_exists with docs0; try rewrite Heq; assumption.
Qed.

(** X8: [create_knowledge_base] of a non-blank name whose sanitized key
    Chroma accepts as a collection name (3 to 63 characters, among other
    rules; ["KB"] gives ["kb"], which it refuses) and is absent or empty,
    with a non-empty chunk list, returns the handle of the sanitized key,
    stores exactly those chunks under it and keeps the collection names
    distinct. *)
Theorem X_create_fresh_stores_chunks :
  forall b name docs s,
  valid_name b (sanitize name) = true -> NoDup (map fst s) -> Py.strip name <> "" ->
  docs <> [] ->
  (lookup (sanitize name) s = None \/ lookup (sanitize name) s = Some []) ->
  exists s1, create_knowledge_base b name docs s = (Ok (mkHandle (sanitize name)), s1)
  /\ lookup (sanitize name) s1 = Some docs /\ NoDup (map fst s1).
Proof.
  intros b name docs s Hv Hn Hs Hd Hl.
  unfold create_knowledge_base. rewrite (strip_nonblank _ Hs). cbv zeta. unfold bind at 1.
  assert (Hv' : valid_name b (sanitize (sanitize name)) = true) by now rewrite vs_sanitize_idem.
  rewrite <- vs_sanitize_idem in Hl.
  destruct (kbe_empty b (sanitize name) s Hv' Hn Hl) as (s' & E & Hn' & Hl').
  rewrite vs_sanitize_idem in Hl'. rewrite E.
  destruct docs as [|d ds]; [congruence|].
  unfold try_except, bind. rewrite (chroma_open_ok _ _ _ Hv).
  destruct (open_empty (sanitize name) s' Hn' Hl') as [Hl2 Hn2].
  pose proof (add_documents_empty (sanitize name) (d :: ds) _ Hl2 Hn2) as [Hl3 Hn3].
  destruct (add_documents (sanitize name) (d :: ds) _) as [r3 s3] eqn:E3.
  unfold add_documents, modify in E3. injection E3 as <- <-.
  simpl in Hl3, Hn3. eexists. split; [reflexivity|]. split; assumption.
Qed.

End VSExtra.

Module ConvExtra.
Import Exc Conv ConvOps ConvMore.

Lemma add_message_eq h a ts st :
  add_message h a ts st =
  (Ok tt,
   let ext := (session_messages st ++ [mkTurn "user" h ts; mkTurn "assistant" a ts])%list in
   mkCM (max_conversation_history st) (memory_size st)
        (chat_messages st ++ [HumanMessage h; AIMessage a])%list
        (if (len ext >? max_conversation_history st)%Z
         then Py.slice_from (len ext - max_conversation_history st) ext else ext)
        (session_id st)).
Proof.
  destruct st as [mx ms ch se sid].
  cbv [add_message try_except bind modify get put ret set_chat set_session]; simpl.
  rewrite <- app_assoc. simpl.
  destruct (len (se ++ _) >? mx)%Z; reflexivity.
Qed.

Lemma add_user_message_eq m ts st :
  add_user_message m ts st =
  (Ok tt,
   let ext := (session_messages st ++ [mkTurn "user" m ts])%list in
   mkCM (max_conversation_history st) (memory_size st)
        (chat_messages st ++ [HumanMessage m])%list
        (if (len ext >? max_conversation_history st)%Z then Py.slice_from 1 ext else ext)
        (session_id st)).
Proof.
  destruct st as [mx ms ch se sid].
  cbv [add_user_message try_except bind modify get put ret set_chat set_session]; simpl.
  destruct (len (se ++ _) >? mx)%Z; reflexivity.
Qed.

Lemma exec_snd op st : exec op st = snd (run_op op st).
Proof. reflexivity. Qed.

Lemma exec_add_message h a ts st :
  exec (OpAddMessage h a ts) st = snd (add_message h a ts st).
Proof. unfold exec, run_op, bind. destruct (add_message h a ts st) as [[] s]; reflexivity. Qed.

Lemma len_app {A} (l1 l2 : list A) : len (l1 ++ l2) = (len l1 + len l2)%Z.
Proof. unfold len. rewrite length_app. lia. Qed.

Lemma len_slice_pos {A} (i : Z) (l : list A) :
  (0 <= i)%Z -> len (Py.slice_from i l) = Z.max 0 (len l - i).
Proof.
  intros Hi. unfold Py.slice_from, len. destruct (0 <=? i)%Z eqn:E; [|lia].
  rewrite length_skipn. lia.
Qed.

Lemma slice_suffix {A} (i : Z) (l : list A) :
  exists pre, l = (pre ++ Py.slice_from i l)%list.
Proof.
  unfold Py.slice_from. destruct (0 <=? i)%Z.
  - exists (firstn (Z.to_nat i) l). symmetry. apply firstn_skipn.
  - exists (firstn (length l - Z.to_nat (- i)) l). symmetry. apply firstn_skipn.
Qed.

(** X10: [add_message] appends the exchange to both logs and evicts only
    from the display log, from its head: the display log ends with
    [min (n + 2) max] entries, a suffix of the old log extended by the two
    new turns, while the LangChain history keeps every exchange ever added. *)
Theorem X_add_message_evicts_display_only :
  (forall st h a ts,
     (0 <= max_conversation_history st)%Z ->
     let st' := exec (OpAddMessage h a ts) st in
     len (session_messages st') = Z.min (len (session_messages st) + 2) (max_conversation_history st)
     /\ (exists dropped, (session_messages st ++ [mkTurn "user" h ts; mkTurn "assistant" a ts])%list
                         = (dropped ++ session_messages st')%list)
     /\ chat_messages st' = (chat_messages st ++ [HumanMessage h; AIMessage a])%list)
  /\ (forall pairs ts st,
     chat_messages (exec_all (map (fun p => OpAddMessage (fst p) (snd p) ts) pairs) st)
     = (chat_messages st ++ flat_map (fun p => [HumanMessage (fst p); AIMessage (snd p)]) pairs)%list).
Proof.
  split.
  - intros st h a ts Hm st'. subst st'. rewrite exec_add_message, add_message_eq. simpl.
    set (ext := (session_messages st ++ _)%list).
    assert (Hext : len ext = (len (session_messages st) + 2)%Z)
      by (unfold ext; rewrite len_app; reflexivity).
    destruct (len ext >? max_conversation_history st)%Z eqn:E.
    + apply Z.gtb_lt in E. split; [|split; [apply slice_suffix | reflexivity]].
      rewrite len_slice_pos by lia. lia.
    + rewrite Z.gtb_ltb, Z.ltb_ge in E. split; [lia|]. split; [exists []; reflexivity | reflexivity].
  - induction pairs as [|[h a] pairs IH]; intros ts st; simpl.
    + now rewrite app_nil_r.
    + rewrite IH, exec_add_message, add_message_eq. simpl.
      now rewrite <- app_assoc.
Qed.


Lemma keeps_ret {A} (a : A) : keeps (ret a).
Proof. intros s; reflexivity. Qed.
Lemma keeps_raise {A} e : keeps (A := A) (raise e).
Proof. intros s; reflexivity. Qed.
Lemma keeps_get : keeps get.
Proof. intros s; reflexivity. Qed.
Lemma keeps_modify f : (forall s, cfg (f s) = cfg s) -> keeps (modify f).
Proof. intros H s; apply H. Qed.
Lemma keeps_bind {A B} (m : CM A) (k : A -> CM B) :
  keeps m -> (forall a, keeps (k a)) -> keeps (bind m k).
Proof.
  intros Hm Hk s. unfold bind. specialize (Hm s).
  destruct (m s) as [[a|e] s']; simpl in *; [rewrite Hk; exact Hm | exact Hm].
Qed.
Lemma keeps_try {A} (m : CM A) h :
  keeps m -> (forall e, keeps (h e)) -> keeps (try_except m h).
Proof.
  intros Hm Hh s. unfold try_except. specialize (Hm s).
  destruct (m s) as [[a|e] s']; simpl in *; [exact Hm | rewrite Hh; exact Hm].
Qed.
Lemma keeps_bind_get {B} (k : ConversationManager -> CM B) :
  (forall s, cfg (snd (k s s)) = cfg s) -> keeps (bind get k).
Proof. intros H s. apply H. Qed.

Lemma cfg_set_chat st m : cfg (set_chat st m) = cfg st.
Proof. reflexivity. Qed.
Lemma cfg_set_session st t : cfg (set_session st t) = cfg st.
Proof. reflexivity. Qed.
Lemma cfg_set_sid st x : cfg (set_sid st x) = cfg st.
Proof. reflexivity. Qed.

Create HintDb keeps.
#[local] Hint Resolve keeps_ret keeps_raise keeps_get cfg_set_chat cfg_set_session cfg_set_sid : keeps.

Ltac keeps_step :=
  lazymatch goal with
  | |- keeps (try_except _ _) => apply keeps_try; [|intros ?; cbv beta]
  | |- keeps (bind get _) =>
      apply keeps_bind_get; intros ?s; cbv beta;
      first [reflexivity | match goal with |- context [if ?c then _ else _] => destruct c; reflexivity end]
  | |- keeps (bind _ _) => apply keeps_bind; [|intros ?; cbv beta]
  | |- keeps (modify _) => apply keeps_modify; intros ?; reflexivity
  | |- keeps (match ?x with _ => _ end) => destruct x
  | |- keeps (if ?x then _ else _) => destruct x
  | |- keeps _ => solve [eauto with keeps]
  end.
Ltac keeps := repeat keeps_step.

Lemma split_roles_keeps msgs : forall us ai, keeps (split_roles msgs us ai).
Proof.
  induction msgs as [|m msgs IH]; intros us ai; simpl; [apply keeps_ret|].
  apply keeps_bind; [unfold getitem; destruct find as [[]|]; eauto with keeps|].
  intros r. destruct (String.eqb r "user"); [|destruct (String.eqb r "assistant")].
  - apply keeps_bind; [unfold getitem; destruct find as [[]|]; eauto with keeps | auto].
  - apply keeps_bind; [unfold getitem; destruct find as [[]|]; eauto with keeps | auto].
  - auto.
Qed.

Lemma add_message_keeps h a ts : keeps (add_message h a ts).
Proof. unfold add_message, log_error. keeps. Qed.
#[local] Hint Resolve add_message_keeps split_roles_keeps : keeps.

Lemma add_pairs_keeps us : forall ai ts, keeps (add_pairs us ai ts).
Proof.
  induction us as [|u us IH]; intros [|a ai] ts; simpl; auto with keeps.
  apply keeps_bind; auto with keeps.
Qed.
#[local] Hint Resolve add_pairs_keeps : keeps.

Lemma run_op_keeps op : keeps (run_op op).
Proof.
  destruct op; simpl;
  unfold get_conversation_history, get_session_messages, get_context_for_rag,
    clear_conversation, set_session_id, get_conversation_summary,
    load_session_messages, add_user_message, add_ai_message,
    get_last_user_message, log_error; keeps.
Qed.

Lemma exec_all_cfg ops : forall st, cfg (exec_all ops st) = cfg st.
Proof.
  induction ops as [|op ops IH]; intros st; simpl; [reflexivity|].
  rewrite IH. apply run_op_keeps.
Qed.


Lemma snd_bind_ret {A B} (m : CM A) (x : B) st : snd (bind m (fun _ => ret x) st) = snd (m st).
Proof. unfold bind. destruct (m st) as [[] s]; reflexivity. Qed.

Lemma add_ai_message_eq m ts st :
  add_ai_message m ts st =
  (Ok tt,
   let ext := (session_messages st ++ [mkTurn "assistant" m ts])%list in
   mkCM (max_conversation_history st) (memory_size st)
        (chat_messages st ++ [AIMessage m])%list
        (if (len ext >? max_conversation_history st)%Z then Py.slice_from 1 ext else ext)
        (session_id st)).
Proof.
  destruct st as [mx ms ch se sid].
  cbv [add_ai_message try_except bind modify get put ret set_chat set_session]; simpl.
  destruct (len (se ++ _) >? mx)%Z; reflexivity.
Qed.

Lemma get_context_eq st :
  get_context_for_rag st =
  (Ok (match chat_messages st with
       | [] => ""
       | _ => Py.join Py.nl (map render (window_messages (memory_size st) (chat_messages st)))
       end), st).
Proof. destruct st as [mx ms [|m ch] se sid]; reflexivity. Qed.

Lemma get_last_eq st :
  get_last_user_message st =
  (Ok (match find (fun t => String.eqb (role t) "user") (rev (session_messages st)) with
       | Some t => Some (content t) | None => None end), st).
Proof. reflexivity. Qed.

Lemma readonly_ops op st :
  op = OpGetHistory \/ op = OpGetSessionMessages \/ op = OpGetContext
  \/ (exists ts, op = OpSummary ts) \/ op = OpLastUser ->
  exec op st = st.
Proof.
  intros [ -> | [ -> | [ -> | [ [ts ->] | -> ] ] ] ];
  destruct st as [mx ms [|m ch] se sid]; reflexivity.
Qed.

Lemma clear_eq st :
  clear_conversation st =
  (Ok tt, mkCM (max_conversation_history st) (memory_size st) [] [] (session_id st)).
Proof. reflexivity. Qed.

Lemma init_cfg_exec ops m :
  max_conversation_history (exec_all ops (init m)) = m
  /\ memory_size (exec_all ops (init m)) = (m - 1)%Z.
Proof.
  pose proof (exec_all_cfg ops (init m)) as H. unfold cfg in H. simpl in H.
  injection H as H1 H2. now split.
Qed.

Lemma skipn_app_le {A} n (l1 l2 : list A) :
  (n <= length l1)%nat -> skipn n (l1 ++ l2) = (skipn n l1 ++ l2)%list.
Proof.
  intros H. rewrite skipn_app. replace (n - length l1)%nat with 0%nat by lia. reflexivity.
Qed.

(** X11: the display log stays within its cap, and the cap is unchanged,
    under every operation except [load_session_messages]. *)
Theorem X_display_cap_kept_outside_load op st :
  (forall msgs ts, op <> OpLoad msgs ts) ->
  (0 <= max_conversation_history st)%Z ->
  (len (session_messages st) <= max_conversation_history st)%Z ->
  max_conversation_history (exec op st) = max_conversation_history st
  /\ (len (session_messages (exec op st)) <= max_conversation_history (exec op st))%Z.
Proof.
  intros Hop Hm Hl.
  pose proof (run_op_keeps op st) as Hc. unfold cfg in Hc. injection Hc as Hmax _.
  fold (exec op st) in Hmax. split; [exact Hmax|]. rewrite Hmax. clear Hmax.
  destruct op.
  - rewrite exec_add_message, add_message_eq. simpl.
    destruct (_ >? _)%Z eqn:E.
    + rewrite len_slice_pos by (apply Z.gtb_lt in E; lia). lia.
    + rewrite Z.gtb_ltb, Z.ltb_ge in E. exact E.
  - now rewrite readonly_ops by auto.
  - now rewrite readonly_ops by auto.
  - now rewrite readonly_ops by auto.
  - unfold exec. simpl run_op. rewrite snd_bind_ret, clear_eq. simpl. exact Hm.
  - exact Hl.
  - rewrite readonly_ops by (right; right; right; left; eexists; reflexivity). exact Hl.
  - exfalso. eapply Hop. reflexivity.
  - unfold exec. simpl run_op. rewrite snd_bind_ret, add_user_message_eq. simpl.
    destruct (_ >? _)%Z eqn:E.
    + rewrite len_slice_pos by lia. rewrite len_app. simpl. unfold len at 2. simpl. lia.
    + rewrite Z.gtb_ltb, Z.ltb_ge in E. exact E.
  - unfold exec. simpl run_op. rewrite snd_bind_ret, add_ai_message_eq. simpl.
    destruct (_ >? _)%Z eqn:E.
    + rewrite len_slice_pos by lia. rewrite len_app. simpl. unfold len at 2. simpl. lia.
    + rewrite Z.gtb_ltb, Z.ltb_ge in E. exact E.
  - now rewrite readonly_ops by auto.
Qed.


(** X12: the model-facing context, by the configured display cap [m] (the
    window size is [m - 1] exchanges): with [m = 1] it is the whole LangChain
    history, however long; with [m >= 2] it is the last [2 (m - 1)]
    messages; with [m <= 0] the oldest [2 (1 - m)] messages are dropped and
    the rest is kept. *)
Theorem X_context_window_by_limit :
  (forall ops,
     let st := exec_all ops (init 1) in
     fst (get_context_for_rag st)
     = Ok (match chat_messages st with
           | [] => "" | _ => Py.join Py.nl (map render (chat_messages st)) end))
  /\ (forall m ops, (2 <= m)%Z ->
     let st := exec_all ops (init m) in
     exists older recent,
       chat_messages st = (older ++ recent)%list
       /\ length recent = Nat.min (length (chat_messages st)) (Z.to_nat (2 * (m - 1)))
       /\ fst (get_context_for_rag st)
          = Ok (match chat_messages st with
                | [] => "" | _ => Py.join Py.nl (map render recent) end))
  /\ (forall m ops, (m <= 0)%Z ->
     let st := exec_all ops (init m) in
     fst (get_context_for_rag st)
     = Ok (match chat_messages st with
           | [] => ""
           | _ => Py.join Py.nl (map render (skipn (Z.to_nat (2 * (1 - m))) (chat_messages st)))
           end)).
Proof.
  split; [|split].
  - intros ops st. subst st. rewrite get_context_eq. simpl.
    destruct (init_cfg_exec ops 1) as [_ Hk]. rewrite Hk.
    unfold window_messages, Py.slice_from. simpl.
    destruct (chat_messages _); reflexivity.
  - intros m ops Hm st. subst st.
    destruct (init_cfg_exec ops m) as [_ Hk].
    set (l := chat_messages _).
    exists (firstn (length l - Z.to_nat (2 * (m - 1))) l),
           (skipn (length l - Z.to_nat (2 * (m - 1))) l).
    split; [symmetry; apply firstn_skipn|]. split.
    + rewrite length_skipn. lia.
    + rewrite get_context_eq. simpl. rewrite Hk. fold l.
      unfold window_messages, Py.slice_from.
      replace (0 <=? - ((m - 1) * 2))%Z with false by lia.
      replace (Z.to_nat (- (- ((m - 1) * 2)))) with (Z.to_nat (2 * (m - 1))) by lia.
      reflexivity.
  - intros m ops Hm st. subst st.
    destruct (init_cfg_exec ops m) as [_ Hk].
    rewrite get_context_eq. simpl. rewrite Hk.
    unfold window_messages, Py.slice_from.
    replace (0 <=? - ((m - 1) * 2))%Z with true by lia.
    replace (Z.to_nat (- ((m - 1) * 2))) with (Z.to_nat (2 * (1 - m))) by lia.
    reflexivity.
Qed.

Lemma find_user_last l t :
  role t = "user" ->
  find (fun t => String.eqb (role t) "user") (rev (l ++ [t])%list) = Some t.
Proof. intros H. rewrite rev_app_distr. simpl. now rewrite H. Qed.

Lemma exec_add_user m ts st :
  exec (OpAddUser m ts) st = snd (add_user_message m ts st).
Proof. unfold exec. simpl run_op. apply snd_bind_ret. Qed.

(** X13: [get_last_user_message] right after a user turn is added: [add_user_message m]
    makes it [m] whenever the cap is at least 1; [add_message h a] makes it
    [h] when the cap is at least 2, and [None] when the cap is at most 1: the
    eviction then removed the user turn just added. *)
Theorem X_last_user_message_after_add :
  (forall st m ts, (1 <= max_conversation_history st)%Z ->
     fst (get_last_user_message (exec (OpAddUser m ts) st)) = Ok (Some m))
  /\ (forall st h a ts, (2 <= max_conversation_history st)%Z ->
     fst (get_last_user_message (exec (OpAddMessage h a ts) st)) = Ok (Some h))
  /\ (forall st h a ts, (max_conversation_history st <= 1)%Z ->
     fst (get_last_user_message (exec (OpAddMessage h a ts) st)) = Ok None).
Proof.
  split; [|split].
  - intros st m ts Hm. rewrite exec_add_user, add_user_message_eq, get_last_eq. simpl.
    set (S0 := session_messages st).
    destruct (len (S0 ++ _) >? _)%Z eqn:E.
    + apply Z.gtb_lt in E. rewrite len_app in E.
      destruct S0 as [|x S']; [unfold len in E; simpl in E; lia|].
      unfold Py.slice_from. simpl. now rewrite find_user_last.
    + now rewrite find_user_last.
  - intros st h a ts Hm. rewrite exec_add_message, add_message_eq, get_last_eq. simpl.
    set (S0 := session_messages st).
    destruct (len (S0 ++ _) >? _)%Z eqn:E.
    + apply Z.gtb_lt in E. rewrite len_app in E.
      unfold Py.slice_from. rewrite len_app. unfold len in *. simpl length in *.
      rewrite (proj2 (Z.leb_le _ _)) by lia.
      rewrite skipn_app_le by lia.
      rewrite rev_app_distr. reflexivity.
    + rewrite rev_app_distr. reflexivity.
  - intros st h a ts Hm. rewrite exec_add_message, add_message_eq, get_last_eq. simpl.
    set (S0 := session_messages st).
    assert (E : (len (S0 ++ [mkTurn "user" h ts; mkTurn "assistant" a ts]) >? max_conversation_history st)%Z = true).
    { apply Z.gtb_lt. rewrite len_app. unfold len. simpl length. lia. }
    rewrite E. unfold Py.slice_from. rewrite len_app. unfold len in *. simpl length.
    rewrite (proj2 (Z.leb_le _ _)) by lia.
    rewrite skipn_app. rewrite skipn_all2 by lia. simpl.
    match goal with |- context [skipn ?n [_; _]] => destruct n as [|[|j]] eqn:Ej end;
      [lia | reflexivity | destruct j; reflexivity].
Qed.


(** X14: after [clear_conversation] both logs are empty, the session id and the
    configuration are kept, and the readers see an empty conversation. *)
Theorem X_clear_resets_both_logs st ts :
  let st' := exec OpClear st in
  chat_messages st' = [] /\ session_messages st' = []
  /\ session_id st' = session_id st /\ cfg st' = cfg st
  /\ fst (get_context_for_rag st') = Ok ""
  /\ fst (get_last_user_message st') = Ok None
  /\ fst (get_conversation_summary ts st')
     = Ok (inl (mkSummary (session_id st) 0 0 (max_conversation_history st) (memory_size st) None false)).
Proof. repeat split. Qed.

Lemma split_roles_turns turns :
  forall us ai s,
  split_roles (map turn_dict turns) us ai s
  = (Ok (us ++ role_contents "user" turns, ai ++ role_contents "assistant" turns)%list, s).
Proof.
  unfold role_contents.
  induction turns as [|t turns IH]; intros us ai s; simpl.
  - now rewrite !app_nil_r.
  - unfold bind at 1. change (getitem (turn_dict t) "role" s) with (Ok (role t) : result string, s).
    cbv beta iota.
    destruct (String.eqb (role t) "user") eqn:Eu.
    + apply String.eqb_eq in Eu. rewrite Eu. simpl.
      unfold bind. change (getitem (turn_dict t) "content" s) with (Ok (content t) : result string, s).
      cbv beta iota. rewrite IH. now rewrite <- app_assoc.
    + destruct (String.eqb (role t) "assistant") eqn:Ea.
      * simpl.
        unfold bind. change (getitem (turn_dict t) "content" s) with (Ok (content t) : result string, s).
        cbv beta iota. rewrite IH. now rewrite <- app_assoc.
      * rewrite IH. reflexivity.
Qed.

Lemma add_pairs_chat us :
  forall ai ts s, exists s',
  add_pairs us ai ts s = (Ok tt, s')
  /\ chat_messages s' = (chat_messages s ++ flat_map (fun p => [HumanMessage (fst p); AIMessage (snd p)]) (combine us ai))%list
  /\ session_id s' = session_id s.
Proof.
  induction us as [|u us IH]; intros [|a ai] ts s; simpl.
  - exists s. now rewrite app_nil_r.
  - exists s. now rewrite app_nil_r.
  - exists s. now rewrite app_nil_r.
  - set (s1 := snd (add_message u a ts s)).
    assert (Hs1 : add_message u a ts s = (Ok tt, s1)) by (unfold s1; now rewrite add_message_eq).
    assert (Hc : chat_messages s1 = (chat_messages s ++ [HumanMessage u; AIMessage a])%list)
      by (unfold s1; now rewrite add_message_eq).
    assert (Hi : session_id s1 = session_id s) by (unfold s1; now rewrite add_message_eq).
    destruct (IH ai ts s1) as (s' & H1 & H2 & H3).
    exists s'. unfold bind at 1. rewrite Hs1, H1. split; [reflexivity|].
    split; [|congruence]. rewrite H2, Hc. now rewrite <- app_assoc.
Qed.

(** X15: reloading a display log pairs the [k]-th user turn with the [k]-th
    assistant turn, whatever their order, and appends a last unpaired user
    turn when there are more user turns. With the default cap 3, reloading
    the log of two exchanges (its oldest turn evicted) pairs the second
    question with the first answer and loses the second answer. *)
Theorem X_reload_pairs_turns_by_rank :
  (forall turns ts st,
     let us := role_contents "user" turns in
     let ais := role_contents "assistant" turns in
     let st' := exec (OpLoad (map turn_dict turns) ts) st in
     chat_messages st'
     = (flat_map (fun p => [HumanMessage (fst p); AIMessage (snd p)]) (combine us ais)
        ++ (if Nat.ltb (length ais) (length us) then [HumanMessage (last us "")] else []))%list
     /\ session_id st' = session_id st)
  /\ (forall h1 a1 h2 a2 ts ts',
     let st := exec_all [OpAddMessage h1 a1 ts; OpAddMessage h2 a2 ts] (init default_max_conversation_history) in
     chat_messages st = [HumanMessage h1; AIMessage a1; HumanMessage h2; AIMessage a2]
     /\ chat_messages (exec (OpLoad (map turn_dict (session_messages st)) ts') st)
        = [HumanMessage h2; AIMessage a1]).
Proof.
  assert (Hload : forall turns ts st,
     let us := role_contents "user" turns in
     let ais := role_contents "assistant" turns in
     let st' := exec (OpLoad (map turn_dict turns) ts) st in
     chat_messages st'
     = (flat_map (fun p => [HumanMessage (fst p); AIMessage (snd p)]) (combine us ais)
        ++ (if Nat.ltb (length ais) (length us) then [HumanMessage (last us "")] else []))%list
     /\ session_id st' = session_id st).
  { intros turns ts st us ais st'. subst st'.
    unfold exec. simpl run_op. rewrite snd_bind_ret.
    destruct (add_pairs_chat us ais ts (mkCM (max_conversation_history st) (memory_size st) [] [] (session_id st)))
      as (s' & H1 & H2 & H3).
    simpl in H2, H3.
    set (tail := if Nat.ltb (length ais) (length us) then [HumanMessage (last us "")] else []).
    assert (EL : exists s'', load_session_messages (map turn_dict turns) ts st = (Ok tt, s'')
                 /\ chat_messages s'' = (chat_messages s' ++ tail)%list /\ session_id s'' = session_id s').
    { unfold load_session_messages, try_except, bind at 1. rewrite clear_eq.
      unfold bind at 1. rewrite split_roles_turns. simpl app. fold us ais.
      unfold bind at 1. rewrite H1.
      replace (Nat.min (length us) (length ais) <? length us)%nat with (length ais <? length us)%nat.
      2:{ destruct (Nat.ltb_spec (length ais) (length us));
          destruct (Nat.ltb_spec (Nat.min (length us) (length ais)) (length us)); lia. }
      unfold tail. destruct (length ais <? length us)%nat; simpl.
      - eexists; split; [reflexivity|]. split; reflexivity.
      - eexists; split; [reflexivity|]. split; [now rewrite app_nil_r | reflexivity]. }
    destruct EL as (s'' & E1 & E2 & E3). rewrite E1. simpl.
    split; [rewrite E2, H2; reflexivity | congruence]. }
  split; [exact Hload|].
  intros h1 a1 h2 a2 ts ts' st. split; [reflexivity|].
  destruct (Hload (session_messages st) ts' st) as [H _]. rewrite H. reflexivity.
Qed.

End ConvExtra.


Module RAGMoreFacts.
Import Exc Doc Py RAG RAGMore RAGFacts SanitizeFacts.

Lemma relay_plain pre frags tail :
  map plain_text pre = map Some frags ->
  relay_llm (pre ++ tail) = (map CStr frags ++ relay_llm tail)%list.
Proof.
  revert frags. induction pre as [|ev pre IH]; intros [|f frags] H; simpl in H; try discriminate.
  - reflexivity.
  - injection H as Hf Hr.
    destruct ev as [[s|t]|r|m]; simpl in Hf; try discriminate; injection Hf as ->; simpl; now rewrite (IH frags Hr).
Qed.

Lemma accumulate_strs xs tail r :
  accumulate (map CStr xs ++ tail) r
  = let '(ys, res) := accumulate tail (r ++ join "" xs) in ((xs ++ ys)%list, res).
Proof.
  revert r. induction xs as [|x xs IH]; intros r; simpl.
  - rewrite str_app_nil_r. destruct (accumulate tail r); reflexivity.
  - rewrite IH. change (match xs with [] => x | _ :: _ => x ++ join "" xs end) with (join "" (x :: xs)).
    rewrite join_empty_cons, str_app_assoc.
    destruct (accumulate tail _); reflexivity.
Qed.

Lemma join_app_single l x : join "" (l ++ [x])%list = join "" l ++ x.
Proof.
  induction l as [|a l IH]; [reflexivity|].
  simpl app. rewrite !join_empty_cons, IH. apply str_app_assoc.
Qed.

Lemma stream_of env mem q :
  generate_response_trace env mem q
  = respond q (relay_llm (llm_astream env
      (format_prompt q (_prepare_context (_retrieve_documents env q)) (chat_history_of mem)))).
Proof. reflexivity. Qed.

End RAGMoreFacts.

Module RAGExtra.
Import Exc Doc Py RAG RAGMore RAGFacts RAGMoreFacts SanitizeFacts.

(** X16: when the model stream fails after some fragments, the error text is
    relayed as one more ordinary fragment: [generate_response] yields the
    fragments, then ["Error generating response: m"], and commits their
    concatenation, error text included, as the assistant turn; the
    apology message is not used. *)
Theorem X_stream_failure_committed_as_answer env mem q pre frags m rest :
  llm_astream env (format_prompt q (_prepare_context (_retrieve_documents env q)) (chat_history_of mem))
    = (pre ++ LFail m :: rest)%list ->
  map plain_text pre = map Some frags ->
  let err := "Error generating response: " ++ m in
  generate_response_trace env mem q
  = (map Yield (frags ++ [err]) ++ [Commit q (join "" (frags ++ [err]))])%list.
Proof.
  intros Hs Hp err. rewrite stream_of, Hs, (relay_plain _ _ _ Hp). simpl relay_llm.
  unfold respond. rewrite accumulate_strs. simpl accumulate. cbv iota beta.
  now rewrite join_app_single.
Qed.


(** X17: when the model stream delivers a chunk whose content is not a [str]
    after some plain fragments, [generate_response] yields those fragments,
    then the apology for the [TypeError] of [response += chunk], and commits
    the apology alone: the fragments the user already saw are not in the
    committed answer. *)
Theorem X_non_str_chunk_commits_only_apology env mem q pre frags t rest :
  llm_astream env (format_prompt q (_prepare_context (_retrieve_documents env q)) (chat_history_of mem))
    = (pre ++ LContent (COther t) :: rest)%list ->
  map plain_text pre = map Some frags ->
  let em := error_message (TypeError ("can only concatenate str (not " ++ dq ++ t ++ dq ++ ") to str")) in
  generate_response_trace env mem q
  = (map Yield (frags ++ [em]) ++ [Commit q em])%list.
Proof.
  intros Hs Hp em. rewrite stream_of, Hs, (relay_plain _ _ _ Hp). simpl relay_llm.
  unfold respond. rewrite accumulate_strs. simpl accumulate. cbv iota beta.
  rewrite app_nil_r, map_app, <- app_assoc. reflexivity.
Qed.

End RAGExtra.

Module DocFacts.
Import Exc Doc DocProc.

Lemma sum_chars_acc docs acc :
  fold_left (fun acc d => acc + Z.of_nat (String.length (page_content d)))%Z docs acc
  = (acc + sum_chars docs)%Z.
Proof.
  unfold sum_chars. revert acc. induction docs as [|d docs IH]; intros acc; simpl; [lia|].
  rewrite IH. symmetry. rewrite IH. lia.
Qed.

Lemma sum_chars_bounds (lo hi : Z) docs :
  Forall (fun d => lo <= Z.of_nat (String.length (page_content d)) <= hi)%Z docs ->
  (lo * Z.of_nat (length docs) <= sum_chars docs <= hi * Z.of_nat (length docs))%Z.
Proof.
  induction 1 as [|d docs Hd Hr IH]; [unfold sum_chars; simpl; lia|].
  unfold sum_chars in *. simpl. rewrite sum_chars_acc. unfold sum_chars in IH |- *.
  rewrite ?Nat2Z.inj_succ. lia.
Qed.

Lemma qle_bool_mib size mx :
  QArith_base.Qle_bool (QArith_base.Qmake size 1048576) (QArith_base.inject_Z mx)
  = (size <=? mx * 1048576)%Z.
Proof. unfold QArith_base.Qle_bool. simpl. now rewrite Z.mul_1_r. Qed.

Lemma endswith_lower_PDF base : endswith (Py.lower (base ++ ".PDF")) ".pdf" = true.
Proof.
  unfold endswith. rewrite SanitizeFacts.lower_app. simpl Py.lower.
  rewrite SanitizeFacts.rev_str_app. simpl. now destruct (Py.rev_str (Py.lower base)).
Qed.

End DocFacts.

Module DocExtra.
Import Exc Doc DocProc DocFacts.

(** X18: [get_document_stats] of a non-empty list reports its length,
    the sum of the chunk lengths and both configuration entries, and its
    average chunk size (floor division) lies between any lower and upper
    bound of the chunk lengths. *)
Theorem X_document_stats_average_within_bounds cs co docs lo hi :
  docs <> [] ->
  Forall (fun d => lo <= Z.of_nat (String.length (page_content d)) <= hi)%Z docs ->
  let st := get_document_stats cs co docs in
  total_chunks st = Z.of_nat (length docs)
  /\ total_chars st = sum_chars docs
  /\ (lo <= average_chunk_size st <= hi)%Z
  /\ chunk_size_config st = Some cs /\ chunk_overlap_config st = Some co.
Proof.
  intros Hne Hb st. subst st.
  pose proof (sum_chars_bounds lo hi docs Hb) as [H1 H2].
  destruct docs as [|d ds]; [congruence|].
  assert (Hn : (0 < Z.of_nat (length (d :: ds)))%Z) by (simpl; lia).
  cbn [get_document_stats total_chunks total_chars average_chunk_size chunk_size_config chunk_overlap_config].
  repeat split; try reflexivity.
  - apply Z.div_le_lower_bound; lia.
  - apply Z.div_le_upper_bound; lia.
Qed.


Lemma fmt_mb_whole k : (0 <= k)%Z -> fmt_mb_1f (k * MiB) = Py.int_str k ++ ".0".
Proof.
  intros Hk. unfold fmt_mb_1f.
  replace (k * MiB * 10)%Z with ((k * 10) * MiB)%Z by lia.
  rewrite Z.div_mul by (unfold MiB; lia). rewrite Z.mod_mul by (unfold MiB; lia).
  cbv [MiB]. replace (2 * 0 >? 1048576)%Z with false by reflexivity. replace (2 * 0 =? 1048576)%Z with false by reflexivity. cbv iota.
  rewrite Z.div_mul by lia. rewrite Z.mod_mul by lia. reflexivity.
Qed.

(** X19: the upload checks accept a file exactly when its lower-cased name ends
    in [.pdf] and its size is at most [max_file_size_mb] MiB; the extension
    is checked first, so a non-PDF name is refused whatever its size; a
    [.PDF] name is treated as a [.pdf] one; a file of [k] whole MiB over the
    limit is refused with the message ["File too large: k.0MB. ..."]. *)
Theorem X_check_upload_accepts_iff :
  (forall name size mx,
     check_upload name size mx = Ok tt
     <-> endswith (Py.lower name) ".pdf" = true /\ (size <= mx * 1048576)%Z)
  /\ (forall name size mx, endswith (Py.lower name) ".pdf" = false ->
     check_upload name size mx = Raise (ValueError "Only PDF files are supported"))
  /\ (forall base size mx, check_upload (base ++ ".PDF") size mx = check_upload (base ++ ".pdf") size mx)
  /\ (forall name k mx, endswith (Py.lower name) ".pdf" = true -> (0 <= mx < k)%Z ->
     check_upload name (k * MiB) mx
     = Raise (ValueError ("File too large: " ++ Py.int_str k ++ ".0" ++ "MB. "
                          ++ "Maximum allowed: " ++ Py.int_str mx ++ "MB"))).
Proof.
  split; [|split; [|split]].
  - intros name size mx. unfold check_upload. rewrite qle_bool_mib.
    destruct (endswith (Py.lower name) ".pdf"); simpl.
    + destruct (size <=? mx * 1048576)%Z eqn:E; simpl.
      * apply Z.leb_le in E. split; auto.
      * apply Z.leb_gt in E. split; [discriminate | lia].
    + split; [discriminate | intros [H _]; discriminate].
  - intros name size mx H. unfold check_upload. now rewrite H.
  - intros base size mx. unfold check_upload.
    rewrite endswith_lower_PDF.
    assert (E : endswith (Py.lower (base ++ ".pdf")) ".pdf" = true).
    { unfold endswith. rewrite SanitizeFacts.lower_app. simpl Py.lower.
      rewrite SanitizeFacts.rev_str_app. simpl. now destruct (Py.rev_str (Py.lower base)). }
    now rewrite E.
  - intros name k mx H Hk. unfold check_upload. rewrite H, qle_bool_mib. simpl negb.
    replace (k * MiB <=? mx * 1048576)%Z with false by (unfold MiB; symmetry; apply Z.leb_gt; nia).
    simpl. rewrite fmt_mb_whole by lia. now rewrite <- SanitizeFacts.str_app_assoc.
Qed.

End DocExtra.

(* ------------------------------------------------------------------ *)
(** ** Concrete instances of the further properties *)

Module VSExtraWitnesses.
Import Exc VS Doc VSMore VSExtra Inputs.

(** X2 on a store of one knowledge base. *)
Lemma X_list_knowledge_bases_exact_sorted_witness :
  NoDup (map fst one_kb_store)
  /\ exists l, list_knowledge_bases one_kb_store = (Ok l, one_kb_store) /\ Sorted name_le l.
Proof.
  assert (Hn : NoDup (map fst one_kb_store)) by (constructor; [simpl; tauto | constructor]).
  destruct (X_list_knowledge_bases_exact_sorted one_kb_store Hn) as (l & E & _ & Hs & _).
  split; [exact Hn|]. exists l. split; [exact E | exact Hs].
Defined.

(** X3 on the key ["proj_"]: its display name does not lead back to it. *)
Lemma X_display_name_roundtrip_witness :
  sanitize "proj_" = "proj_" /\ sanitize (display_name "proj_") <> "proj_".
Proof.
  assert (H : sanitize "proj_" = "proj_") by (vm_compute; reflexivity).
  split; [exact H|]. intros E.
  apply (proj1 (X_display_name_roundtrip "proj_" H) E). reflexivity.
Defined.

(** X4 on a store of one knowledge base and its offered name ["Kb1"]. *)
Lemma X_available_name_selects_its_collection_witness :
  exists c docs, lookup c one_kb_store = Some docs /\ "Kb1" = display_name c
  /\ get_knowledge_base (chroma_backend RaiseOnDelete) "Kb1" one_kb_store
     = (Ok (Some (mkHandle c)), one_kb_store).
Proof.
  assert (Hn : NoDup (map fst one_kb_store)) by (constructor; [simpl; tauto | constructor]).
  assert (Hall : Forall (fun kv => sanitize (fst kv) = fst kv
                         /\ valid_name (chroma_backend RaiseOnDelete) (fst kv) = true) one_kb_store)
    by (constructor; [split; vm_compute; reflexivity | constructor]).
  assert (Hget : get_available_knowledge_bases one_kb_store = (Ok ["Kb1"], one_kb_store))
    by (vm_compute; reflexivity).
  assert (Hin : In "Kb1" ["Kb1"]) by (left; reflexivity).
  destruct (X_available_name_selects_its_collection _ _ _ _ Hn Hall Hget Hin)
    as (c & docs & Hl & _ & Hd & Hok & _).
  exists c, docs. split; [exact Hl|]. split; [exact Hd|].
  apply Hok. unfold one_kb_store in Hl. cbn [lookup] in Hl.
  destruct (String.eqb "kb1" c) eqn:Ec; [|discriminate Hl].
  apply String.eqb_eq in Ec. subst c. intros E. vm_compute in E. discriminate E.
Defined.

(** X1 on ["KB1"]: the probe, the delete and the stats of ["KB1"] leave the
    collection ["other"] as it was. *)
Lemma X_store_ops_touch_only_their_collection_witness :
  Py.is_ascii "KB1" = true
  /\ lookup "other" (snd (knowledge_base_exists (chroma_backend RaiseOnDelete) "KB1"
                          [("kb1", [sample_doc]); ("other", [sample_doc])]))
     = Some [sample_doc]
  /\ lookup "other" (snd (delete_knowledge_base (chroma_backend DropCollection) "KB1"
                          [("kb1", [sample_doc]); ("other", [sample_doc])]))
     = Some [sample_doc].
Proof.
  assert (Ha : Py.is_ascii "KB1" = true) by reflexivity.
  assert (Hne : "other" <> sanitize "KB1") by (vm_compute; discriminate).
  destruct (X_store_ops_touch_only_their_collection (chroma_backend RaiseOnDelete) "KB1" [] "" Ha)
    as (H1 & _).
  destruct (X_store_ops_touch_only_their_collection (chroma_backend DropCollection) "KB1" [] "" Ha)
    as (_ & _ & H3 & _).
  split; [exact Ha|]. split.
  - rewrite (H1 _ _ Hne). reflexivity.
  - rewrite (H3 _ _ Hne). reflexivity.
Defined.

(** X5 on a store of one knowledge base: one more chunk is appended under
    ["KB1"], and nothing is added under ["KB"], whose key Chroma refuses. *)
Lemma X_add_documents_appends_or_refuses_witness :
  add_documents_to_knowledge_base (chroma_backend RaiseOnDelete) "KB1" [sample_doc] one_kb_store
  = (Ok true, update (sanitize "KB1") ([sample_doc] ++ [sample_doc])%list one_kb_store)
  /\ add_documents_to_knowledge_base (chroma_backend RaiseOnDelete) "KB" [sample_doc] one_kb_store
  = (Ok false, one_kb_store).
Proof.
  assert (Hv : valid_name (chroma_backend RaiseOnDelete) (sanitize "KB1") = true)
    by (vm_compute; reflexivity).
  assert (Hv2 : valid_name (chroma_backend RaiseOnDelete) (sanitize "KB") = false)
    by (vm_compute; reflexivity).
  assert (Hn : NoDup (map fst one_kb_store)) by (constructor; [simpl; tauto | constructor]).
  destruct (X_add_documents_appends_or_refuses (chroma_backend RaiseOnDelete) "KB1" [sample_doc] _ Hn) as [H _].
  destruct (X_add_documents_appends_or_refuses (chroma_backend RaiseOnDelete) "KB" [sample_doc] _ Hn) as [_ [H2 _]].
  split; [apply (H Hv [sample_doc]); [vm_compute; reflexivity | discriminate] | exact (H2 Hv2)].
Defined.

(** X6 on a store of one knowledge base, for ["KB1"] and for ["KB"]. *)
Lemma X_kb_stats_counts_records_witness :
  get_knowledge_base_stats (chroma_backend RaiseOnDelete) "./chroma_db" "KB1" one_kb_store
  = (Ok (Some (mkKBStats "KB1" (Z.of_nat (length [sample_doc])) (sanitize "KB1") "./chroma_db")),
     one_kb_store)
  /\ get_knowledge_base_stats (chroma_backend RaiseOnDelete) "./chroma_db" "KB" one_kb_store
  = (Ok None, one_kb_store).
Proof.
  assert (Hv : valid_name (chroma_backend RaiseOnDelete) (sanitize "KB1") = true)
    by (vm_compute; reflexivity).
  assert (Hv2 : valid_name (chroma_backend RaiseOnDelete) (sanitize "KB") = false)
    by (vm_compute; reflexivity).
  assert (Hn : NoDup (map fst one_kb_store)) by (constructor; [simpl; tauto | constructor]).
  destruct (X_kb_stats_counts_records (chroma_backend RaiseOnDelete) "./chroma_db" "KB1" _ Hn) as [H _].
  destruct (X_kb_stats_counts_records (chroma_backend RaiseOnDelete) "./chroma_db" "KB" _ Hn) as [_ [H2 _]].
  split; [apply (H Hv [sample_doc]); [vm_compute; reflexivity | discriminate] | exact (H2 Hv2)].
Defined.

(** X7 on a store of one knowledge base. *)
Lemma X_create_refuses_taken_key_witness :
  create_knowledge_base (chroma_backend RaiseOnDelete) "kb1 " [sample_doc] one_kb_store
  = (Raise (ValueError ("Knowledge base '" ++ "kb1 " ++ "' already exists")), one_kb_store).
Proof.
  assert (Hv : valid_name (chroma_backend RaiseOnDelete) (sanitize "kb1 ") = true)
    by (vm_compute; reflexivity).
  assert (Hs : Py.strip "kb1 " <> "") by (vm_compute; discriminate).
  assert (Hl : lookup (sanitize "kb1 ") one_kb_store = Some [sample_doc]) by (vm_compute; reflexivity).
  assert (Hd : [sample_doc] <> []) by discriminate.
  exact (proj1 (X_create_refuses_taken_key _ _ [sample_doc] _ _ Hv Hs Hl Hd)).
Defined.

(** X8: a second knowledge base next to the first. *)
Lemma X_create_fresh_stores_chunks_witness :
  exists s1, create_knowledge_base (chroma_backend RaiseOnDelete) "KB2" [sample_doc] one_kb_store
             = (Ok (mkHandle (sanitize "KB2")), s1)
  /\ lookup "kb1" s1 = Some [sample_doc].
Proof.
  assert (Hv : valid_name (chroma_backend RaiseOnDelete) (sanitize "KB2") = true)
    by (vm_compute; reflexivity).
  assert (Hn : NoDup (map fst one_kb_store)) by (constructor; [simpl; tauto | constructor]).
  assert (Hs : Py.strip "KB2" <> "") by (vm_compute; discriminate).
  assert (Hd : [sample_doc] <> []) by discriminate.
  assert (Hl : lookup (sanitize "KB2") one_kb_store = None
               \/ lookup (sanitize "KB2") one_kb_store = Some []) by (left; vm_compute; reflexivity).
  destruct (X_create_fresh_stores_chunks _ _ _ _ Hv Hn Hs Hd Hl) as (s1 & E & _ & _).
  exists s1. split; [exact E|].
  vm_compute in E. injection E as <-. reflexivity.
Defined.

End VSExtraWitnesses.

Module ConvExtraWitnesses.
Import Exc Conv ConvOps ConvMore ConvExtra.

(** X10 from a fresh manager with the default cap. *)
Lemma X_add_message_evicts_display_only_witness :
  len (session_messages (exec (OpAddMessage "h" "a" "t") (init 3)))
  = Z.min (len (session_messages (init 3)) + 2) (max_conversation_history (init 3)).
Proof.
  destruct (proj1 X_add_message_evicts_display_only (init 3) "h" "a" "t") as [H _].
  - simpl. lia.
  - exact H.
Defined.

(** X11 for [add_user_message] on a fresh manager. *)
Lemma X_display_cap_kept_outside_load_witness :
  (len (session_messages (exec (OpAddUser "m" "t") (init 3)))
   <= max_conversation_history (exec (OpAddUser "m" "t") (init 3)))%Z.
Proof.
  apply (X_display_cap_kept_outside_load (OpAddUser "m" "t") (init 3)).
  - intros msgs ts. discriminate.
  - simpl. lia.
  - vm_compute. discriminate.
Defined.

(** X12 with the caps 3 and 0. *)
Lemma X_context_window_by_limit_witness :
  (exists older recent, chat_messages (exec_all [OpAddMessage "h" "a" "t"] (init 3))
                        = (older ++ recent)%list)
  /\ fst (get_context_for_rag (exec_all [OpAddMessage "h" "a" "t"] (init 0)))
     = Ok (Py.join Py.nl (map render (skipn 2 [HumanMessage "h"; AIMessage "a"]))).
Proof.
  destruct X_context_window_by_limit as (_ & H2 & H3). split.
  - destruct (H2 3%Z [OpAddMessage "h" "a" "t"]) as (older & recent & E & _); [lia|].
    exists older, recent. exact E.
  - rewrite (H3 0%Z [OpAddMessage "h" "a" "t"]) by lia. reflexivity.
Defined.

(** X13 with the caps 3 and 1. *)
Lemma X_last_user_message_after_add_witness :
  fst (get_last_user_message (exec (OpAddUser "m" "t") (init 3))) = Ok (Some "m")
  /\ fst (get_last_user_message (exec (OpAddMessage "h" "a" "t") (init 3))) = Ok (Some "h")
  /\ fst (get_last_user_message (exec (OpAddMessage "h" "a" "t") (init 1))) = Ok None.
Proof.
  destruct X_last_user_message_after_add as (H1 & H2 & H3).
  split; [apply H1; simpl; lia|]. split; [apply H2; simpl; lia | apply H3; simpl; lia].
Defined.

End ConvExtraWitnesses.

Module RAGExtraWitnesses.
Import Exc Doc Py RAG RAGExtra Inputs.

(** X16 on a stream failing after ["Par"] and ["tial"]. *)
Lemma X_stream_failure_committed_as_answer_witness :
  generate_response_trace failing_stream_env (Conv.init 3) "q"
  = (map Yield (["Par"; "tial"] ++ ["Error generating response: rate limit"])
     ++ [Commit "q" (join "" (["Par"; "tial"] ++ ["Error generating response: rate limit"]))])%list.
Proof.
  apply (X_stream_failure_committed_as_answer failing_stream_env (Conv.init 3) "q"
           [LContent (CStr "Par"); LNoContent "tial"] ["Par"; "tial"] "rate limit"
           [LContent (CStr "x")]); reflexivity.
Defined.

(** X17 on a stream whose second chunk is a list of content blocks. *)
Lemma X_non_str_chunk_commits_only_apology_witness :
  generate_response_trace block_chunk_env (Conv.init 3) "q"
  = (map Yield (["Hi"] ++ [error_message (TypeError ("can only concatenate str (not " ++ dq ++ "list" ++ dq ++ ") to str"))])
     ++ [Commit "q" (error_message (TypeError ("can only concatenate str (not " ++ dq ++ "list" ++ dq ++ ") to str")))])%list.
Proof.
  apply (X_non_str_chunk_commits_only_apology block_chunk_env (Conv.init 3) "q"
           [LContent (CStr "Hi")] ["Hi"] "list" [LContent (CStr "x")]); reflexivity.
Defined.

End RAGExtraWitnesses.

Module DocExtraWitnesses.
Import Exc Doc DocProc DocExtra Inputs.

(** X18 on one chunk of 12 characters. *)
Lemma X_document_stats_average_within_bounds_witness :
  (12 <= average_chunk_size (get_document_stats 1000 200 [sample_doc]) <= 12)%Z.
Proof.
  destruct (X_document_stats_average_within_bounds 1000 200 [sample_doc] 12 12) as (_ & _ & H & _).
  - discriminate.
  - constructor; [simpl; lia | constructor].
  - exact H.
Defined.

(** X19 on a text file and on a 300 MiB [.PDF] file with a 200 MB limit. *)
Lemma X_check_upload_accepts_iff_witness :
  check_upload "notes.txt" 10 200 = Raise (ValueError "Only PDF files are supported")
  /\ check_upload "a.PDF" (300 * MiB) 200
     = Raise (ValueError ("File too large: " ++ Py.int_str 300 ++ ".0" ++ "MB. "
                          ++ "Maximum allowed: " ++ Py.int_str 200 ++ "MB")).
Proof.
  destruct X_check_upload_accepts_iff as (_ & H2 & _ & H4). split.
  - apply H2. vm_compute. reflexivity.
  - apply H4; [vm_compute; reflexivity | lia].
Defined.

End DocExtraWitnesses.
